(** * The OptiMathSAT optimization front end of pySMT

    A shallow embedding of [pysmt/optimization/optimsat.py]: the comparison
    helper [_le] and the four optimization entry points of [OptiMSATSolver]
    ([optimize], [pareto_optimize], [lexicographic_optimize] and the
    generator [boxed_optimization]), followed by the properties of the
    orchestration that they implement.

    The native solver is an external collaborator.  Every call into it is
    recorded as an [event]; the answers of the solver, of the term converter
    and of the formula manager are given by a record of oracles,
    [msat_lib], that may depend on the whole history of calls. *)

From Stdlib Require Import ZArith List String Bool Lia.
Import ListNotations.
Local Open Scope string_scope.
Local Open Scope list_scope.
Local Open Scope Z_scope.

(** ** Data *)

(** The types of pySMT, as far as [_le] tells them apart. *)
Inductive PySMTType :=
| BOOL
| INT
| REAL
| BVType (width : N)
| STRING
| ArrayType (index elem : PySMTType).

Definition is_int_type (t : PySMTType) : bool :=
  match t with INT => true | _ => false end.
Definition is_real_type (t : PySMTType) : bool :=
  match t with REAL => true | _ => false end.
Definition is_bv_type (t : PySMTType) : bool :=
  match t with BVType _ => true | _ => false end.

(** Formula nodes.  The class lives outside this file; only the two
    comparison nodes that [_le] asks the formula manager to build and the
    leaves are needed here. *)
Inductive FNode :=
| Symbol (name : string)
| Constant (c : Z)
| LE (left right : FNode)
| BVULE (left right : FNode).

(** Modelled from the spec: the Goal class is declared outside this file.
    A goal is a tagged object; a Minimize or Maximize goal carries one cost
    expression, a MinMax or MaxMin goal an ordered sequence of them.  The
    source observes a goal through its four tag predicates, through the
    attribute [terms] and through the method [term()]. *)
Inductive goal_tag :=
| Minimize
| Maximize
| MinMax
| MaxMin
| OtherTag (name : string).

Record Goal := {
  tag : goal_tag;
  term : FNode;
  terms : list FNode
}.

Definition is_minimization_goal (g : Goal) : bool :=
  match tag g with Minimize => true | _ => false end.
Definition is_maximization_goal (g : Goal) : bool :=
  match tag g with Maximize => true | _ => false end.
Definition is_minmax_goal (g : Goal) : bool :=
  match tag g with MinMax => true | _ => false end.
Definition is_maxmin_goal (g : Goal) : bool :=
  match tag g with MaxMin => true | _ => false end.

(** A goal is supported when it carries one of the four tags. *)
Definition supported (g : Goal) : bool :=
  is_minmax_goal g || is_maxmin_goal g ||
  is_minimization_goal g || is_maximization_goal g.

(** Native terms and objective handles are opaque values of the library. *)
Definition msat_term := Z.
Definition msat_objective := Z.

(** What the local variables [make_fun] and [f] of the source may hold when
    they are called: one of the four objective constructors of the library
    or, after a rebinding, a formula node. *)
Inductive callable :=
| msat_make_minmax
| msat_make_maxmin
| msat_make_minimize
| msat_make_maximize
| term_object (t : FNode).

(** The local variable [obj_fun]: one converted term or a list of them. *)
Inductive obj_fun_arg :=
| Scalar (t : msat_term)
| Vector (ts : list msat_term).

(** Calls into the collaborators, in the order in which they are made.
    [Call f a extra] is the call [f(self.msat_env(), a, *extra)]; [Solve rt]
    is a satisfiability check that returned [rt], [SolveUnknown] one that
    the solver could not decide. *)
Inductive event :=
| SetOptPriority (mode : string)
| Convert (t : FNode)
| Call (f : callable) (a : obj_fun_arg) (extra : list bool)
| AssertObjective (o : msat_objective)
| Solve (rt : bool)
| SolveUnknown
| ObjectiveResult (o : msat_objective) (optres : Z)
| IsUnbounded (o : msat_objective) (r : Z)
| IsStrict (o : msat_objective) (r : Z)
| LoadObjectiveModel (o : msat_objective) (check : Z).

Definition session := list event.

(** [get_model] wraps the session as it is when the model is taken. *)
Record OptiMSATModel := { model_session : session }.

Inductive exn :=
| GoalNotSupportedError (solver : string) (goal : Goal)
| SolverReturnedUnknownResultError
| PysmtUnboundedOptimizationError (message : string)
| ValueError
| TypeError (message : string)
| PysmtTypeError (message : string).

(** Python values that occur as the second component of the result of
    [optimize]. *)
Inductive pyobject :=
| PyInt (z : Z)
| PyFNode (v : FNode)
| PyList (l : list FNode).

(** The answers of the native satisfiability check. *)
Inductive msat_result :=
| MSAT_SAT
| MSAT_UNSAT
| MSAT_UNKNOWN.

(** What [self.solve()] does with the answer: it returns [True] for SAT and
    [False] for UNSAT; for UNKNOWN it returns nothing and raises. *)
Definition solve_answer (r : msat_result) : option bool :=
  match r with
  | MSAT_SAT => Some true
  | MSAT_UNSAT => Some false
  | MSAT_UNKNOWN => None
  end.

(** The collaborators: the status constants and functions of the library,
    the term converter, the formula manager and the value readout of a
    model.  The constructors of objectives are total; what the call of a
    formula node does is decided by the formula class, outside this file,
    and may raise; the formula manager checks the types of the operands of
    the node that it is asked to build and may raise as well. *)
Record msat_lib := {
  MSAT_OPT_UNKNOWN : Z;
  MSAT_OPT_UNSAT : Z;
  convert : FNode -> msat_term;
  make_objective : session -> callable -> obj_fun_arg -> list bool -> msat_objective;
  call_term : session -> FNode -> obj_fun_arg -> list bool -> exn + msat_objective;
  msat_solve : session -> msat_result;
  mgr_LE : FNode -> FNode -> exn + FNode;
  mgr_BVULE : FNode -> FNode -> exn + FNode;
  objective_result : session -> msat_objective -> Z;
  objective_value_is_unbounded : session -> msat_objective -> Z;
  objective_value_is_strict : session -> msat_objective -> Z;
  load_objective_model : session -> msat_objective -> Z;
  get_value : OptiMSATModel -> FNode -> FNode;
  get_type : FNode -> PySMTType
}.

(** ** The monad of the orchestration

    A computation reads the history of the session and returns the events it
    appends to it, with an exception or a result. *)
Definition M (A : Type) : Type := session -> list event * (exn + A).

Definition ret {A} (a : A) : M A := fun _ => ([], inr a).
Definition raise {A} (e : exn) : M A := fun _ => ([], inl e).
Definition bind {A B} (m : M A) (f : A -> M B) : M B :=
  fun s =>
    match m s with
    | (e1, inl x) => (e1, inl x)
    | (e1, inr a) =>
        match f a (s ++ e1) with
        | (e2, r) => (e1 ++ e2, r)
        end
    end.

Notation "x <- m ;; k" := (bind m (fun x => k))
  (at level 61, m at next level, right associativity).
Notation "m ;;; k" := (bind m (fun _ => k))
  (at level 61, right associativity).

Definition emit (e : event) : M unit := fun _ => ([e], inr tt).

Section Solver.

Variable L : msat_lib.

(** *** The calls *)

Definition converter_convert (t : FNode) : M msat_term :=
  fun _ => ([Convert t], inr (convert L t)).

Definition invoke (f : callable) (s : session) (a : obj_fun_arg)
  (extra : list bool) : exn + msat_objective :=
  match f with
  | term_object t => call_term L s t a extra
  | _ => inr (make_objective L s f a extra)
  end.

Definition call (f : callable) (a : obj_fun_arg) (extra : list bool)
  : M msat_objective :=
  fun s => ([Call f a extra], invoke f s a extra).

Definition msat_set_opt_priority (mode : string) : M unit :=
  emit (SetOptPriority mode).

Definition msat_assert_objective (o : msat_objective) : M unit :=
  emit (AssertObjective o).

(** [self.solve()], inherited from the solver class: the check of the
    library, whose answer UNKNOWN raises
    [SolverReturnedUnknownResultError]. *)
Definition solve : M bool :=
  fun s =>
    match solve_answer (msat_solve L s) with
    | Some rt => ([Solve rt], inr rt)
    | None => ([SolveUnknown], inl SolverReturnedUnknownResultError)
    end.

Definition msat_objective_result (o : msat_objective) : M Z :=
  fun s => ([ObjectiveResult o (objective_result L s o)],
            inr (objective_result L s o)).

Definition msat_objective_value_is_unbounded (o : msat_objective) : M Z :=
  fun s => ([IsUnbounded o (objective_value_is_unbounded L s o)],
            inr (objective_value_is_unbounded L s o)).

Definition msat_objective_value_is_strict (o : msat_objective) : M Z :=
  fun s => ([IsStrict o (objective_value_is_strict L s o)],
            inr (objective_value_is_strict L s o)).

Definition msat_load_objective_model (o : msat_objective) : M Z :=
  fun s => ([LoadObjectiveModel o (load_objective_model L s o)],
            inr (load_objective_model L s o)).

Definition get_model : M OptiMSATModel :=
  fun s => ([], inr {| model_session := s |}).

(** *** [_le] *)

(** [return mgr.LE(x, y)]: the node that the manager builds, or the
    exception that it raises. *)
Definition returning (r : exn + FNode) : exn + option FNode :=
  match r with
  | inl e => inl e
  | inr node => inr (Some node)
  end.

Definition _le (x y : FNode) : exn + option FNode :=
  let otype := get_type L x in
  if is_int_type otype || is_real_type otype then returning (mgr_LE L x y)
  else if is_bv_type otype then returning (mgr_BVULE L x y)
  else inr None.

(** *** [optimize] *)

(** [for f in cost_function: obj_fun.append(self.converter.convert(f))],
    where the loop variable is not used after the loop. *)
Fixpoint convert_terms (cost_function : list FNode) (obj_fun : list msat_term)
  : M (list msat_term) :=
  match cost_function with
  | [] => ret obj_fun
  | f :: rest =>
      c <- converter_convert f ;;
      convert_terms rest (obj_fun ++ [c])
  end.

(** Lines 91 to 112: the objective of the goal. *)
Definition make_objective_of (goal : Goal) : M msat_objective :=
  if is_minmax_goal goal || is_maxmin_goal goal then
    let make_fun :=
      if is_minmax_goal goal then msat_make_minmax else msat_make_maxmin in
    obj_fun <- convert_terms (terms goal) [] ;;
    call make_fun (Vector obj_fun) [false]
  else if is_minimization_goal goal || is_maximization_goal goal then
    let make_fun :=
      if is_minimization_goal goal then msat_make_minimize
      else msat_make_maximize in
    obj_fun <- converter_convert (term goal) ;;
    call make_fun (Scalar obj_fun) [false]
  else raise (GoalNotSupportedError "optimathsat" goal).

(** Lines 116 to 139: the reading of the result. *)
Definition read_objective (msat_obj : msat_objective)
  : M (option (OptiMSATModel * pyobject)) :=
  optres <- msat_objective_result msat_obj ;;
  if optres =? MSAT_OPT_UNKNOWN L then raise SolverReturnedUnknownResultError
  else if optres =? MSAT_OPT_UNSAT L then ret None
  else
    unbounded <- msat_objective_value_is_unbounded msat_obj ;;
    if 0 <? unbounded then
      raise (PysmtUnboundedOptimizationError "The optimal value is unbounded")
    else
      is_strict <- msat_objective_value_is_strict msat_obj ;;
      if negb (is_strict =? 0) then
        raise (PysmtUnboundedOptimizationError
                 "The optimal value is infinitesimal")
      else
        check <- msat_load_objective_model msat_obj ;;
        if negb (check =? 0) then raise ValueError
        else
          model <- get_model ;;
          ret (Some (model, PyInt optres)).

(** Lines 91 to 115: objective, assertion and the satisfiability check. *)
Definition assert_and_solve (goal : Goal) : M msat_objective :=
  msat_obj <- make_objective_of goal ;;
  msat_assert_objective msat_obj ;;;
  solve ;;;
  ret msat_obj.

Definition optimize (goal : Goal) : M (option (OptiMSATModel * pyobject)) :=
  msat_obj <- assert_and_solve goal ;;
  read_objective msat_obj.

(** *** The loop shared by the three multi-objective entry points

    The bodies of the first loop of [pareto_optimize],
    [lexicographic_optimize] and [boxed_optimization] are the same text. *)

(** [for f in cost_function: obj_fun.append(self.converter.convert(f))],
    where the loop variable [f] is the variable that held the constructor:
    the loop leaves the last term of the sequence in [f]. *)
Fixpoint convert_terms_rebinding (f : callable) (cost_function : list FNode)
  (obj_fun : list msat_term) : M (callable * list msat_term) :=
  match cost_function with
  | [] => ret (f, obj_fun)
  | t :: rest =>
      c <- converter_convert t ;;
      convert_terms_rebinding (term_object t) rest (obj_fun ++ [c])
  end.

(** [msat_obj = f(self.msat_env(), obj_fun)] and the assertion. *)
Definition make_and_assert (f : callable) (obj_fun : obj_fun_arg)
  : M msat_objective :=
  msat_obj <- call f obj_fun [] ;;
  msat_assert_objective msat_obj ;;;
  ret msat_obj.

Definition assert_goal (g : Goal) : M msat_objective :=
  if is_minmax_goal g || is_maxmin_goal g then
    let f := if is_minmax_goal g then msat_make_minmax else msat_make_maxmin in
    fo <- convert_terms_rebinding f (terms g) [] ;;
    make_and_assert (fst fo) (Vector (snd fo))
  else if is_minimization_goal g || is_maximization_goal g then
    let f :=
      if is_minimization_goal g then msat_make_minimize
      else msat_make_maximize in
    obj_fun <- converter_convert (term g) ;;
    make_and_assert f (Scalar obj_fun)
  else raise (GoalNotSupportedError "optimathsat" g).

Fixpoint assert_goals (goals : list Goal) (msat_objs : list msat_objective)
  : M (list msat_objective) :=
  match goals with
  | [] => ret msat_objs
  | g :: rest =>
      msat_obj <- assert_goal g ;;
      assert_goals rest (msat_objs ++ [msat_obj])
  end.

(** *** [pareto_optimize] *)

(** The dictionary [models]: the newest binding of a goal comes first. *)
Definition models_dict := list (Goal * (OptiMSATModel * FNode)).

(** The second loop either returns from the function or runs to its end. *)
Inductive loop_exit :=
| Returned (v : option models_dict)
| Completed (models : models_dict).

Fixpoint pareto_loop (goals : list Goal) (models : models_dict)
  : M loop_exit :=
  match goals with
  | [] => ret (Completed models)
  | goal :: rest =>
      rt <- solve ;;
      if rt then
        model <- get_model ;;
        pareto_loop rest ((goal, (model, get_value L model (term goal))) :: models)
      else ret (Returned None)
  end.

Definition pareto_optimize (goals : list Goal) : M (option models_dict) :=
  msat_set_opt_priority "par" ;;;
  assert_goals goals [] ;;;
  e <- pareto_loop goals [] ;;
  match e with
  | Returned v => ret v
  | Completed _ => ret None  (* the function ends without a return *)
  end.

(** *** [lexicographic_optimize] *)

Definition lexicographic_optimize (goals : list Goal)
  : M (option OptiMSATModel * option (list FNode)) :=
  msat_set_opt_priority "lex" ;;;
  assert_goals goals [] ;;;
  rt <- solve ;;
  if rt then
    model <- get_model ;;
    ret (Some model, Some (map (fun x => get_value L model (term x)) goals))
  else ret (None, None).

(** *** [boxed_optimization], a generator *)

Inductive generator :=
| GEN_CREATED (goals : list Goal)
| GEN_SUSPENDED
| GEN_CLOSED.

Inductive gen_step :=
| Yield (model : OptiMSATModel)
| StopIteration
| Raise (e : exn).

(** Calling the function runs none of its body. *)
Definition boxed_optimization (goals : list Goal) : generator :=
  GEN_CREATED goals.

(** Lines 218 to 247, run by the first [next]. *)
Definition boxed_start (goals : list Goal) : M (bool * OptiMSATModel) :=
  msat_set_opt_priority "box" ;;;
  assert_goals goals [] ;;;
  rt <- solve ;;
  model <- get_model ;;
  ret (rt, model).

(** Lines 253 to 255, run when the generator is resumed after a [yield]. *)
Definition boxed_resume : M (bool * OptiMSATModel) :=
  rt <- solve ;;
  model <- get_model ;;
  ret (rt, model).

(** The test of [while(rt)], the [yield] and the final [return None]. *)
Definition boxed_while (r : exn + bool * OptiMSATModel)
  : generator * gen_step :=
  match r with
  | inl e => (GEN_CLOSED, Raise e)
  | inr (true, model) => (GEN_SUSPENDED, Yield model)
  | inr (false, _) => (GEN_CLOSED, StopIteration)
  end.

Definition next (G : generator) (s : session)
  : list event * (generator * gen_step) :=
  match G with
  | GEN_CREATED goals =>
      (fst (boxed_start goals s), boxed_while (snd (boxed_start goals s)))
  | GEN_SUSPENDED =>
      (fst (boxed_resume s), boxed_while (snd (boxed_resume s)))
  | GEN_CLOSED => ([], (GEN_CLOSED, StopIteration))
  end.

(** Iterating the generator at most [n] times, as a [for] loop that the
    caller may leave early does: the events, the models yielded and the
    generator that is left. *)
Fixpoint iterate (n : nat) (G : generator) (s : session)
  : list event * (list OptiMSATModel * generator) :=
  match n with
  | O => ([], ([], G))
  | S k =>
      match next G s with
      | (e1, (G1, Yield model)) =>
          match iterate k G1 (s ++ e1) with
          | (e2, (ms, G2)) => (e1 ++ e2, (model :: ms, G2))
          end
      | (e1, (G1, _)) => (e1, ([], G1))
      end
  end.

End Solver.

Arguments ret {A} a _ /.
Arguments raise {A} e _ /.
Arguments emit e _ /.

(** ** A scripted library, for running the code on concrete inputs

    The first [successes] satisfiability checks of a session succeed and the
    later ones fail; the three readouts of an objective answer [optres],
    [unbounded] and [strict]; a handle is the length of the history at its
    creation; the call of a formula node is refused, as the call operator of
    a node that is not a function symbol is. *)
Definition is_solve (e : event) : bool :=
  match e with Solve _ | SolveUnknown => true | _ => false end.

(** The types of the scripted library, and their comparison. *)
Definition scripted_type (t : FNode) : PySMTType :=
  match t with
  | Symbol "b" => BOOL
  | LE _ _ | BVULE _ _ => BOOL
  | Symbol "v" => BVType 8
  | Symbol "r" => REAL
  | _ => INT
  end.

Fixpoint type_eqb (a b : PySMTType) : bool :=
  match a, b with
  | BOOL, BOOL | INT, INT | REAL, REAL | STRING, STRING => true
  | BVType w, BVType w' => N.eqb w w'
  | ArrayType i e, ArrayType i' e' => type_eqb i i' && type_eqb e e'
  | _, _ => false
  end.

(** A comparison node of the scripted manager: built when the operands
    have the same type, refused otherwise. *)
Definition scripted_node (node : FNode -> FNode -> FNode) (a b : FNode)
  : exn + FNode :=
  if type_eqb (scripted_type a) (scripted_type b) then inr (node a b)
  else inl (PysmtTypeError "operands of different types").

Definition scripted (successes : nat) (optres unbounded strict : Z)
  : msat_lib := {|
  MSAT_OPT_UNKNOWN := -1;
  MSAT_OPT_UNSAT := 0;
  convert := fun t =>
    match t with
    | Symbol name => Z.of_nat (String.length name)
    | Constant c => c
    | _ => 0
    end;
  make_objective := fun s _ _ _ => Z.of_nat (List.length s);
  call_term := fun _ _ _ _ => inl (TypeError "a formula node is not an objective constructor");
  msat_solve := fun s =>
    if Nat.ltb (List.length (filter is_solve s)) successes then MSAT_SAT
    else MSAT_UNSAT;
  mgr_LE := scripted_node LE;
  mgr_BVULE := scripted_node BVULE;
  objective_result := fun _ _ => optres;
  objective_value_is_unbounded := fun _ _ => unbounded;
  objective_value_is_strict := fun _ _ => strict;
  load_objective_model := fun _ _ => 0;
  get_value := fun m _ => Constant (Z.of_nat (List.length (model_session m)));
  get_type := scripted_type
|}.

Definition x : FNode := Symbol "x".
Definition y : FNode := Symbol "yy".

Definition minimize_x : Goal := {| tag := Minimize; term := x; terms := [] |}.
Definition maximize_y : Goal := {| tag := Maximize; term := y; terms := [] |}.
Definition minmax_xy : Goal :=
  {| tag := MinMax; term := Symbol "max_x_yy"; terms := [x; y] |}.
Definition maxmin_xy : Goal :=
  {| tag := MaxMin; term := Symbol "min_x_yy"; terms := [x; y] |}.
Definition maxsmt_goal : Goal :=
  {| tag := OtherTag "MaxSMT"; term := x; terms := [] |}.

(** The value of the variable [f] after the loop [for f in ts]. *)
Definition rebound (f : callable) (ts : list FNode) : callable :=
  fold_left (fun _ t => term_object t) ts f.

(** The constructor chosen for a goal by its tag. *)
Definition vector_constructor (g : Goal) : callable :=
  if is_minmax_goal g then msat_make_minmax else msat_make_maxmin.
Definition scalar_constructor (g : Goal) : callable :=
  if is_minimization_goal g then msat_make_minimize else msat_make_maximize.

Definition is_vector (g : Goal) : bool := is_minmax_goal g || is_maxmin_goal g.
Definition is_scalar (g : Goal) : bool :=
  is_minimization_goal g || is_maximization_goal g.

(** The models taken right after each successful satisfiability check of the
    events [evs], which extend the history [s]. *)
Fixpoint snapshots (s : session) (evs : list event) : list OptiMSATModel :=
  match evs with
  | [] => []
  | Solve true :: rest =>
      {| model_session := s ++ [Solve true] |}
        :: snapshots (s ++ [Solve true]) rest
  | e :: rest => snapshots (s ++ [e]) rest
  end.

(** A goal for which the variable [f] of the multi-objective loop still
    holds a constructor when it is called: a scalar goal, or a vector goal
    with no term. *)
Definition keeps_constructor (g : Goal) : bool :=
  supported g &&
  (negb (is_vector g) || match terms g with [] => true | _ => false end).

(** Readings of a sequence of events: the number of satisfiability checks,
    the functions called to build objectives, the objectives asserted and
    the terms converted, each in the order of the calls. *)
Definition checks (evs : list event) : nat :=
  List.length (filter is_solve evs).

Fixpoint called (evs : list event) : list callable :=
  match evs with
  | [] => []
  | Call f _ _ :: rest => f :: called rest
  | _ :: rest => called rest
  end.

Fixpoint asserted (evs : list event) : list msat_objective :=
  match evs with
  | [] => []
  | AssertObjective o :: rest => o :: asserted rest
  | _ :: rest => asserted rest
  end.

Fixpoint converted (evs : list event) : list FNode :=
  match evs with
  | [] => []
  | Convert t :: rest => t :: converted rest
  | _ :: rest => converted rest
  end.

(** The calls by which an objective is built and asserted. *)
Definition is_objective_event (e : event) : bool :=
  match e with
  | Convert _ | Call _ _ _ | AssertObjective _ => true
  | _ => false
  end.

Definition is_set_priority (e : event) : bool :=
  match e with SetOptPriority _ => true | _ => false end.


(** The scripted library with a solver whose checks are never decided. *)
Definition scripted_unknown_check : msat_lib := {|
  MSAT_OPT_UNKNOWN := MSAT_OPT_UNKNOWN (scripted 1 2 0 0);
  MSAT_OPT_UNSAT := MSAT_OPT_UNSAT (scripted 1 2 0 0);
  convert := convert (scripted 1 2 0 0);
  make_objective := make_objective (scripted 1 2 0 0);
  call_term := call_term (scripted 1 2 0 0);
  msat_solve := fun _ => MSAT_UNKNOWN;
  mgr_LE := mgr_LE (scripted 1 2 0 0);
  mgr_BVULE := mgr_BVULE (scripted 1 2 0 0);
  objective_result := objective_result (scripted 1 2 0 0);
  objective_value_is_unbounded := objective_value_is_unbounded (scripted 1 2 0 0);
  objective_value_is_strict := objective_value_is_strict (scripted 1 2 0 0);
  load_objective_model := load_objective_model (scripted 1 2 0 0);
  get_value := get_value (scripted 1 2 0 0);
  get_type := get_type (scripted 1 2 0 0)
|}.

(** A satisfiability check that returned. *)
Definition is_answered (e : event) : bool :=
  match e with Solve _ => true | _ => false end.

(** Every objective asserted in the events [evs], which extend the history
    [s], is the result of the call made just before it: [last] is the
    result of the preceding event when that event is a call. *)
Fixpoint asserts_results (L : msat_lib) (s : session)
  (last : option (exn + msat_objective)) (evs : list event) : Prop :=
  match evs with
  | [] => True
  | e :: rest =>
      match e with
      | AssertObjective o => last = Some (inr o)
      | _ => True
      end /\
      asserts_results L (s ++ [e])
        match e with
        | Call f a extra => Some (invoke L f s a extra)
        | _ => None
        end rest
  end.

(** A value that is no sequence. *)
Definition is_scalar_value (v : pyobject) : bool :=
  match v with PyList _ => false | _ => true end.

Definition minmax_empty : Goal :=
  {| tag := MinMax; term := Symbol "max"; terms := [] |}.

(** ** Properties *)

Section Properties.

Variable L : msat_lib.

(** *** Running a sequence of two computations *)

Lemma bind_inr {A B} (m : M A) (f : A -> M B) s e1 a :
  m s = (e1, inr a) ->
  bind m f s = (e1 ++ fst (f a (s ++ e1)), snd (f a (s ++ e1))).
Proof.
  intros H. unfold bind. rewrite H. destruct (f a (s ++ e1)); reflexivity.
Qed.

Lemma bind_inl {A B} (m : M A) (f : A -> M B) s e1 e :
  m s = (e1, inl e) -> bind m f s = (e1, inl e).
Proof.
  intros H. unfold bind. rewrite H. reflexivity.
Qed.

Lemma bind_assoc_run {A B C} (m : M A) (f : A -> M B) (g : B -> M C) s :
  bind (bind m f) g s = bind m (fun a => bind (f a) g) s.
Proof.
  unfold bind. destruct (m s) as [e1 [e|a]]; [reflexivity|].
  destruct (f a (s ++ e1)) as [e2 [e|b]]; [reflexivity|].
  rewrite <- app_assoc. destruct (g b (s ++ e1 ++ e2)) as [e3 r].
  rewrite app_assoc. reflexivity.
Qed.

(** *** The conversion loops *)

Lemma convert_terms_run ts : forall acc s,
  convert_terms L ts acc s
  = (map Convert ts, inr (acc ++ map (convert L) ts)).
Proof.
  induction ts as [|t ts IH]; intros acc s; simpl.
  - rewrite app_nil_r. reflexivity.
  - unfold bind, converter_convert. rewrite IH. simpl.
    rewrite <- app_assoc. reflexivity.
Qed.

Lemma convert_terms_rebinding_run ts : forall f acc s,
  convert_terms_rebinding L f ts acc s
  = (map Convert ts, inr (rebound f ts, acc ++ map (convert L) ts)).
Proof.
  induction ts as [|t ts IH]; intros f acc s; simpl.
  - rewrite app_nil_r. reflexivity.
  - unfold bind, converter_convert. rewrite IH. simpl.
    rewrite <- app_assoc. reflexivity.
Qed.

Lemma rebound_last f ts t : rebound f (ts ++ [t]) = term_object t.
Proof.
  unfold rebound. rewrite fold_left_app. reflexivity.
Qed.

(** *** [_le] *)

(** C10: when the type of the first operand is neither integer, real nor
    bit-vector, [_le] returns [None]: no comparison is built and nothing is
    raised. *)
Theorem le_unsupported_type_is_None (a b : FNode) :
  is_int_type (get_type L a) = false ->
  is_real_type (get_type L a) = false ->
  is_bv_type (get_type L a) = false ->
  _le L a b = inr None.
Proof.
  intros Hi Hr Hb. unfold _le. rewrite Hi, Hr, Hb. reflexivity.
Qed.

End Properties.

Lemma le_unsupported_type_is_None_witness :
  get_type (scripted 0 0 0 0) (Symbol "b") = BOOL /\
  _le (scripted 0 0 0 0) (Symbol "b") (Symbol "c") = inr None.
Proof.
  split; [reflexivity|].
  apply (le_unsupported_type_is_None (scripted 0 0 0 0) (Symbol "b") (Symbol "c"));
    reflexivity.
Defined.

(** *** The objective of a goal *)

Section Objectives.

Variable L : msat_lib.

Lemma invoke_constructor f s a extra :
  (forall t, f <> term_object t) ->
  invoke L f s a extra = inr (make_objective L s f a extra).
Proof.
  intros H. destruct f; try reflexivity. exfalso. apply (H t). reflexivity.
Qed.

Lemma vector_constructor_not_term g t : vector_constructor g <> term_object t.
Proof. unfold vector_constructor. destruct (is_minmax_goal g); discriminate. Qed.

Lemma scalar_constructor_not_term g t : scalar_constructor g <> term_object t.
Proof.
  unfold scalar_constructor. destruct (is_minimization_goal g); discriminate.
Qed.

(** In [optimize] a vector goal has every term converted, in order, and the
    constructor of its tag is called on the whole converted sequence. *)
Lemma make_objective_of_vector g s :
  is_vector g = true ->
  make_objective_of L g s
  = (map Convert (terms g)
       ++ [Call (vector_constructor g) (Vector (map (convert L) (terms g))) [false]],
     inr (make_objective L (s ++ map Convert (terms g)) (vector_constructor g)
            (Vector (map (convert L) (terms g))) [false])).
Proof.
  intros Hv. unfold make_objective_of, is_vector in *. rewrite Hv.
  unfold bind. rewrite convert_terms_run. simpl.
  unfold call. fold (vector_constructor g).
  rewrite invoke_constructor by (intro; apply vector_constructor_not_term).
  reflexivity.
Qed.

Lemma make_objective_of_scalar g s :
  is_vector g = false -> is_scalar g = true ->
  make_objective_of L g s
  = ([Convert (term g);
      Call (scalar_constructor g) (Scalar (convert L (term g))) [false]],
     inr (make_objective L (s ++ [Convert (term g)]) (scalar_constructor g)
            (Scalar (convert L (term g))) [false])).
Proof.
  intros Hv Hs. unfold make_objective_of, is_vector, is_scalar in *.
  rewrite Hv, Hs. unfold bind, converter_convert, call.
  fold (scalar_constructor g).
  rewrite invoke_constructor by (intro; apply scalar_constructor_not_term).
  reflexivity.
Qed.

Lemma supported_cases g :
  supported g = (is_vector g || is_scalar g)%bool.
Proof.
  unfold supported, is_vector, is_scalar. rewrite orb_assoc. reflexivity.
Qed.

Lemma make_objective_of_unsupported g s :
  supported g = false ->
  make_objective_of L g s = ([], inl (GoalNotSupportedError "optimathsat" g)).
Proof.
  rewrite supported_cases. intros H. apply orb_false_elim in H as [Hv Hs].
  unfold make_objective_of, is_vector, is_scalar in *. rewrite Hv, Hs.
  reflexivity.
Qed.

(** In the three multi-objective entry points the function called for a
    vector goal is whatever the loop over the terms left in [f]. *)
Lemma make_and_assert_run f a s :
  make_and_assert L f a s
  = match invoke L f s a [] with
    | inl e => ([Call f a []], inl e)
    | inr o => ([Call f a []; AssertObjective o], inr o)
    end.
Proof.
  unfold make_and_assert, bind, call. destruct (invoke L f s a []); reflexivity.
Qed.

Lemma assert_goal_vector g s :
  is_vector g = true ->
  assert_goal L g s
  = let evs := map Convert (terms g) in
    let f := rebound (vector_constructor g) (terms g) in
    let a := Vector (map (convert L) (terms g)) in
    match invoke L f (s ++ evs) a [] with
    | inl e => (evs ++ [Call f a []], inl e)
    | inr o => (evs ++ [Call f a []; AssertObjective o], inr o)
    end.
Proof.
  intros Hv. unfold assert_goal, is_vector in *. rewrite Hv.
  fold (vector_constructor g). unfold bind.
  rewrite convert_terms_rebinding_run. simpl.
  rewrite make_and_assert_run.
  destruct (invoke L _ _ _ _); reflexivity.
Qed.

Lemma assert_goal_scalar g s :
  is_vector g = false -> is_scalar g = true ->
  assert_goal L g s
  = let o := make_objective L (s ++ [Convert (term g)]) (scalar_constructor g)
               (Scalar (convert L (term g))) [] in
    ([Convert (term g);
      Call (scalar_constructor g) (Scalar (convert L (term g))) [];
      AssertObjective o], inr o).
Proof.
  intros Hv Hs. unfold assert_goal, is_vector, is_scalar in *.
  rewrite Hv, Hs. fold (scalar_constructor g).
  unfold bind, converter_convert. rewrite make_and_assert_run.
  rewrite invoke_constructor by (intro; apply scalar_constructor_not_term).
  reflexivity.
Qed.

Lemma assert_goal_unsupported g s :
  supported g = false ->
  assert_goal L g s = ([], inl (GoalNotSupportedError "optimathsat" g)).
Proof.
  rewrite supported_cases. intros H. apply orb_false_elim in H as [Hv Hs].
  unfold assert_goal, is_vector, is_scalar in *. rewrite Hv, Hs.
  reflexivity.
Qed.

(** No satisfiability check is run while the objectives are asserted. *)
Lemma assert_goal_no_solve g s :
  Forall (fun e => is_solve e = false) (fst (assert_goal L g s)).
Proof.
  destruct (is_vector g) eqn:Hv.
  - rewrite assert_goal_vector by assumption. cbv zeta.
    assert (Hc : Forall (fun e => is_solve e = false) (map Convert (terms g))).
    { apply Forall_forall. intros e He. apply in_map_iff in He as [t [<- _]].
      reflexivity. }
    destruct (invoke L _ _ _ _); simpl; apply Forall_app; split; auto.
  - destruct (is_scalar g) eqn:Hs.
    + rewrite assert_goal_scalar by assumption. simpl. auto.
    + rewrite assert_goal_unsupported.
      * constructor.
      * rewrite supported_cases, Hv, Hs. reflexivity.
Qed.

Lemma assert_goals_no_solve goals : forall acc s,
  Forall (fun e => is_solve e = false) (fst (assert_goals L goals acc s)).
Proof.
  induction goals as [|g goals IH]; intros acc s; simpl.
  - constructor.
  - unfold bind. pose proof (assert_goal_no_solve g s) as Hg.
    destruct (assert_goal L g s) as [e1 [e|o]]; simpl in *; auto.
    specialize (IH (acc ++ [o]) (s ++ e1)).
    destruct (assert_goals L goals (acc ++ [o]) (s ++ e1)) as [e2 r]; simpl in *.
    apply Forall_app; split; assumption.
Qed.

Lemma assert_goals_app pre : forall rest acc s,
  assert_goals L (pre ++ rest) acc s
  = bind (assert_goals L pre acc) (fun objs => assert_goals L rest objs) s.
Proof.
  induction pre as [|g pre IH]; intros rest acc s; simpl.
  - unfold bind. simpl. rewrite app_nil_r.
    destruct (assert_goals L rest acc s); reflexivity.
  - unfold bind at 1. rewrite (bind_assoc_run (assert_goal L g)).
    unfold bind at 1.
    destruct (assert_goal L g s) as [e1 [e|o]]; [reflexivity|].
    rewrite IH. reflexivity.
Qed.

End Objectives.

(** *** [optimize] *)

Section Optimize.

Variable L : msat_lib.

(** For a supported goal the objective is built and asserted, and one
    satisfiability check is run, which returns or raises. *)
Lemma make_objective_of_supported g s :
  supported g = true ->
  exists pre o, make_objective_of L g s = (pre, inr o).
Proof.
  rewrite supported_cases. intros H.
  destruct (is_vector g) eqn:Hv.
  - rewrite make_objective_of_vector by assumption. eauto.
  - simpl in H. rewrite make_objective_of_scalar by assumption. eauto.
Qed.

Lemma assert_and_solve_answered g s pre o rt :
  make_objective_of L g s = (pre, inr o) ->
  solve_answer (msat_solve L (s ++ pre ++ [AssertObjective o])) = Some rt ->
  assert_and_solve L g s = (pre ++ [AssertObjective o; Solve rt], inr o).
Proof.
  intros Hm Hr. unfold assert_and_solve, bind. rewrite Hm.
  unfold msat_assert_objective, solve. simpl.
  rewrite <- !app_assoc. simpl. rewrite Hr. reflexivity.
Qed.

Lemma assert_and_solve_unknown g s pre o :
  make_objective_of L g s = (pre, inr o) ->
  solve_answer (msat_solve L (s ++ pre ++ [AssertObjective o])) = None ->
  assert_and_solve L g s
  = (pre ++ [AssertObjective o; SolveUnknown],
     inl SolverReturnedUnknownResultError).
Proof.
  intros Hm Hr. unfold assert_and_solve, bind. rewrite Hm.
  unfold msat_assert_objective, solve. simpl.
  rewrite <- !app_assoc. simpl. rewrite Hr. reflexivity.
Qed.

Lemma assert_and_solve_supported g s :
  supported g = true ->
  exists pre o,
    make_objective_of L g s = (pre, inr o) /\
    (assert_and_solve L g s
       = (pre ++ [AssertObjective o; SolveUnknown],
          inl SolverReturnedUnknownResultError) \/
     exists rt,
       assert_and_solve L g s = (pre ++ [AssertObjective o; Solve rt], inr o)).
Proof.
  intros H. destruct (make_objective_of_supported g s H) as [pre [o Hm]].
  exists pre, o. split; [assumption|].
  destruct (solve_answer (msat_solve L (s ++ pre ++ [AssertObjective o])))
    as [rt|] eqn:Hr.
  - right. exists rt. apply assert_and_solve_answered; assumption.
  - left. apply assert_and_solve_unknown; assumption.
Qed.

Lemma optimize_check_unknown g s pre :
  assert_and_solve L g s = (pre, inl SolverReturnedUnknownResultError) ->
  optimize L g s = (pre, inl SolverReturnedUnknownResultError).
Proof. intros H. unfold optimize. apply bind_inl. assumption. Qed.

Lemma optimize_unsupported g s :
  supported g = false ->
  optimize L g s = ([], inl (GoalNotSupportedError "optimathsat" g)).
Proof.
  intros H. unfold optimize, assert_and_solve, bind.
  rewrite make_objective_of_unsupported by assumption. reflexivity.
Qed.

Lemma optimize_run g s pre o :
  assert_and_solve L g s = (pre, inr o) ->
  optimize L g s
  = (pre ++ fst (read_objective L o (s ++ pre)),
     snd (read_objective L o (s ++ pre))).
Proof.
  intros H. unfold optimize. apply bind_inr. assumption.
Qed.

(** The result of reading the objective, by the status it reports. *)
Lemma read_objective_unknown o s :
  objective_result L s o = MSAT_OPT_UNKNOWN L ->
  snd (read_objective L o s) = inl SolverReturnedUnknownResultError.
Proof.
  intros H. unfold read_objective, bind, msat_objective_result.
  rewrite H, Z.eqb_refl. reflexivity.
Qed.

Lemma read_objective_unsat o s :
  objective_result L s o <> MSAT_OPT_UNKNOWN L ->
  objective_result L s o = MSAT_OPT_UNSAT L ->
  snd (read_objective L o s) = inr None.
Proof.
  intros Hn H. unfold read_objective, bind, msat_objective_result.
  apply Z.eqb_neq in Hn. rewrite Hn. rewrite H, Z.eqb_refl. reflexivity.
Qed.

Lemma read_objective_optimal o s :
  objective_result L s o <> MSAT_OPT_UNKNOWN L ->
  objective_result L s o <> MSAT_OPT_UNSAT L ->
  let optres := objective_result L s o in
  let s1 := s ++ [ObjectiveResult o optres] in
  let u := objective_value_is_unbounded L s1 o in
  let s2 := s1 ++ [IsUnbounded o u] in
  let st := objective_value_is_strict L s2 o in
  let s3 := s2 ++ [IsStrict o st] in
  let check := load_objective_model L s3 o in
  read_objective L o s
  = if 0 <? u then
      ([ObjectiveResult o optres; IsUnbounded o u],
       inl (PysmtUnboundedOptimizationError "The optimal value is unbounded"))
    else if negb (st =? 0) then
      ([ObjectiveResult o optres; IsUnbounded o u; IsStrict o st],
       inl (PysmtUnboundedOptimizationError "The optimal value is infinitesimal"))
    else if negb (check =? 0) then
      ([ObjectiveResult o optres; IsUnbounded o u; IsStrict o st;
        LoadObjectiveModel o check], inl ValueError)
    else
      ([ObjectiveResult o optres; IsUnbounded o u; IsStrict o st;
        LoadObjectiveModel o check],
       inr (Some ({| model_session := s3 ++ [LoadObjectiveModel o check] |},
                  PyInt optres))).
Proof.
  intros Hk Hu. cbv zeta.
  unfold read_objective, bind, msat_objective_result.
  apply Z.eqb_neq in Hk. apply Z.eqb_neq in Hu. rewrite Hk, Hu.
  unfold msat_objective_value_is_unbounded.
  destruct (0 <? _); [reflexivity|].
  unfold msat_objective_value_is_strict.
  destruct (negb (_ =? 0)) eqn:Hst; [reflexivity|].
  unfold msat_load_objective_model.
  destruct (negb (load_objective_model L _ o =? 0)); reflexivity.
Qed.

(** A result other than an exception or [None] is a pair whose second
    component is the status that the library reported. *)
Lemma read_objective_pair o s m v :
  snd (read_objective L o s) = inr (Some (m, v)) ->
  v = PyInt (objective_result L s o)
  /\ objective_result L s o <> MSAT_OPT_UNKNOWN L
  /\ objective_result L s o <> MSAT_OPT_UNSAT L.
Proof.
  intros H.
  destruct (Z.eq_dec (objective_result L s o) (MSAT_OPT_UNKNOWN L)) as [Hk|Hk].
  { rewrite read_objective_unknown in H by assumption. discriminate. }
  destruct (Z.eq_dec (objective_result L s o) (MSAT_OPT_UNSAT L)) as [Hu|Hu].
  { rewrite read_objective_unsat in H by assumption. discriminate. }
  rewrite read_objective_optimal in H by assumption. cbv zeta in H.
  destruct (0 <? _); [discriminate|].
  destruct (negb (_ =? 0)); [discriminate|].
  destruct (negb (_ =? 0)); [discriminate|].
  simpl in H. inversion H. auto.
Qed.

(** C4, as amended: for a supported goal [optimize] raises
    [SolverReturnedUnknownResultError] when the satisfiability check itself
    is not decided, and then no status is read; when the check returns,
    with [optres] the status that the library reports for the asserted
    objective after it, [optimize] raises that error exactly when [optres]
    is the Unknown status and returns [None] exactly when it is the Unsat
    status. *)
Theorem optimize_unknown_and_unsat g s :
  supported g = true ->
  MSAT_OPT_UNKNOWN L <> MSAT_OPT_UNSAT L ->
  exists pre o,
    make_objective_of L g s = (pre, inr o) /\
    let h := s ++ pre ++ [AssertObjective o] in
    (solve_answer (msat_solve L h) = None ->
     optimize L g s
     = (pre ++ [AssertObjective o; SolveUnknown],
        inl SolverReturnedUnknownResultError)) /\
    (forall rt,
       solve_answer (msat_solve L h) = Some rt ->
       let optres := objective_result L (h ++ [Solve rt]) o in
       (snd (optimize L g s) = inl SolverReturnedUnknownResultError
        <-> optres = MSAT_OPT_UNKNOWN L) /\
       (snd (optimize L g s) = inr None <-> optres = MSAT_OPT_UNSAT L)).
Proof.
  intros Hs Hd.
  destruct (make_objective_of_supported g s Hs) as [pre [o Hm]].
  exists pre, o. split; [assumption|]. cbv zeta. split.
  - intros Hr. apply optimize_check_unknown.
    apply assert_and_solve_unknown; assumption.
  - intros rt Hr.
    pose proof (assert_and_solve_answered g s pre o rt Hm Hr) as Ha.
    rewrite (optimize_run _ _ _ _ Ha). simpl snd.
    replace (s ++ pre ++ [AssertObjective o; Solve rt])
      with ((s ++ pre ++ [AssertObjective o]) ++ [Solve rt])
      by (rewrite <- !app_assoc; reflexivity).
    set (h := (s ++ pre ++ [AssertObjective o]) ++ [Solve rt]).
    destruct (Z.eq_dec (objective_result L h o) (MSAT_OPT_UNKNOWN L)) as [Hk|Hk].
    { rewrite read_objective_unknown by assumption. split; split; intros H.
      - assumption.
      - reflexivity.
      - discriminate.
      - congruence. }
    destruct (Z.eq_dec (objective_result L h o) (MSAT_OPT_UNSAT L)) as [Hu|Hu].
    { rewrite read_objective_unsat by assumption. split; split; intros H.
      - discriminate.
      - congruence.
      - assumption.
      - reflexivity. }
    rewrite read_objective_optimal by assumption. cbv zeta.
    split; split; intros H; try contradiction;
      repeat match type of H with
      | context [if ?c then _ else _] => destruct c
      end; simpl in H; discriminate.
Qed.



(** Whenever [optimize] returns a pair, the second component is the status
    that the library reported for the objective after the satisfiability
    check. *)
Lemma optimize_value_is_status g s m v :
  snd (optimize L g s) = inr (Some (m, v)) ->
  exists pre o,
    assert_and_solve L g s = (pre, inr o) /\
    v = PyInt (objective_result L (s ++ pre) o) /\
    objective_result L (s ++ pre) o <> MSAT_OPT_UNKNOWN L /\
    objective_result L (s ++ pre) o <> MSAT_OPT_UNSAT L.
Proof.
  intros H.
  destruct (supported g) eqn:Hs.
  - destruct (assert_and_solve_supported g s Hs) as [pre [o [_ [Ha|[rt Ha]]]]].
    + rewrite (optimize_check_unknown _ _ _ Ha) in H. discriminate.
    + eexists _, o. split; [exact Ha|].
      rewrite (optimize_run _ _ _ _ Ha) in H. simpl snd in H.
      apply read_objective_pair in H. exact H.
  - rewrite optimize_unsupported in H by assumption. discriminate.
Qed.

(** C3, as amended: whenever [optimize] reaches the Optimal outcome and
    returns a pair, for a goal of any tag, MinMax and MaxMin included, the
    value component of the pair is a single scalar; it is never a
    sequence. *)
Theorem optimize_value_is_scalar g s m v :
  snd (optimize L g s) = inr (Some (m, v)) ->
  is_scalar_value v = true /\ forall vs, v <> PyList vs.
Proof.
  intros H.
  destruct (optimize_value_is_status g s m v H) as [pre [o [_ [-> _]]]].
  split; [reflexivity|]. intros vs. discriminate.
Qed.

End Optimize.

(** *** The multi-objective entry points *)

Section MultiObjective.

Variable L : msat_lib.

Lemma bind_get_model {B} (f : OptiMSATModel -> M B) s :
  bind get_model f s = f {| model_session := s |} s.
Proof.
  unfold bind, get_model. rewrite app_nil_r.
  destruct (f _ s); reflexivity.
Qed.

Lemma bind_solve {B} (f : bool -> M B) s :
  bind (solve L) f s
  = match solve_answer (msat_solve L s) with
    | Some rt =>
        (Solve rt :: fst (f rt (s ++ [Solve rt])),
         snd (f rt (s ++ [Solve rt])))
    | None => ([SolveUnknown], inl SolverReturnedUnknownResultError)
    end.
Proof.
  unfold bind, solve. destruct (solve_answer (msat_solve L s)) as [rt|].
  - destruct (f _ _); reflexivity.
  - reflexivity.
Qed.

Lemma bind_set_opt_priority {B} mode (k : M B) s :
  bind (msat_set_opt_priority mode) (fun _ => k) s
  = (SetOptPriority mode :: fst (k (s ++ [SetOptPriority mode])),
     snd (k (s ++ [SetOptPriority mode]))).
Proof.
  unfold bind, msat_set_opt_priority, emit. destruct (k _); reflexivity.
Qed.

Lemma assert_goal_keeps_constructor g s :
  keeps_constructor g = true -> exists evs o, assert_goal L g s = (evs, inr o).
Proof.
  unfold keeps_constructor. rewrite supported_cases. intros H.
  apply andb_true_iff in H as [Hs Hk].
  destruct (is_vector g) eqn:Hv.
  - simpl in Hk. destruct (terms g) as [|t ts] eqn:Ht; [|discriminate].
    rewrite assert_goal_vector by assumption. rewrite Ht. cbv zeta. simpl.
    rewrite invoke_constructor by (intro; apply vector_constructor_not_term).
    eauto.
  - simpl in Hs. rewrite assert_goal_scalar by assumption. eauto.
Qed.

Lemma assert_goals_keep_constructor goals : forall acc s,
  forallb keeps_constructor goals = true ->
  exists evs objs, assert_goals L goals acc s = (evs, inr objs).
Proof.
  induction goals as [|g goals IH]; intros acc s H; simpl in *.
  - eauto.
  - apply andb_true_iff in H as [Hg Hr].
    destruct (assert_goal_keeps_constructor g s Hg) as [e1 [o Ho]].
    destruct (IH (acc ++ [o]) (s ++ e1) Hr) as [e2 [objs Hobjs]].
    exists (e1 ++ e2), objs. unfold bind. rewrite Ho, Hobjs. reflexivity.
Qed.

Lemma assert_goals_unsupported pre g post acc s evs objs :
  supported g = false ->
  assert_goals L pre acc s = (evs, inr objs) ->
  assert_goals L (pre ++ g :: post) acc s
  = (evs, inl (GoalNotSupportedError "optimathsat" g)).
Proof.
  intros Hg Hpre. rewrite assert_goals_app. unfold bind. rewrite Hpre.
  simpl. unfold bind. rewrite assert_goal_unsupported by assumption.
  rewrite app_nil_r. reflexivity.
Qed.

(** [lexicographic_optimize], by the outcome of the first loop. *)
Lemma lexicographic_optimize_raise goals s evs e :
  assert_goals L goals [] (s ++ [SetOptPriority "lex"]) = (evs, inl e) ->
  lexicographic_optimize L goals s = (SetOptPriority "lex" :: evs, inl e).
Proof.
  intros H. unfold lexicographic_optimize. rewrite bind_set_opt_priority.
  unfold bind. rewrite H. reflexivity.
Qed.

Lemma lexicographic_optimize_run goals s evs objs :
  assert_goals L goals [] (s ++ [SetOptPriority "lex"]) = (evs, inr objs) ->
  let h := s ++ SetOptPriority "lex" :: evs in
  let model := {| model_session := h ++ [Solve true] |} in
  lexicographic_optimize L goals s
  = match solve_answer (msat_solve L h) with
    | Some true =>
        (SetOptPriority "lex" :: evs ++ [Solve true],
         inr (Some model,
              Some (map (fun g => get_value L model (term g)) goals)))
    | Some false =>
        (SetOptPriority "lex" :: evs ++ [Solve false], inr (None, None))
    | None =>
        (SetOptPriority "lex" :: evs ++ [SolveUnknown],
         inl SolverReturnedUnknownResultError)
    end.
Proof.
  intros H. cbv zeta. unfold lexicographic_optimize.
  rewrite bind_set_opt_priority.
  rewrite (bind_inr _ _ _ _ _ H). rewrite bind_solve.
  replace ((s ++ [SetOptPriority "lex"]) ++ evs)
    with (s ++ SetOptPriority "lex" :: evs)
    by (rewrite <- app_assoc; reflexivity).
  destruct (solve_answer (msat_solve L _)) as [[|]|].
  - rewrite bind_get_model. reflexivity.
  - reflexivity.
  - reflexivity.
Qed.

(** The second loop of [pareto_optimize]: the checks succeed up to the first
    that fails, which ends the function, or up to the first that is not
    decided, which raises, or they all succeed. *)
Lemma pareto_loop_cases goals : forall models s,
  (exists k, (k < List.length goals)%nat /\
     pareto_loop L goals models s
     = (repeat (Solve true) k ++ [Solve false], inr (Returned None)))
  \/
  (exists k, (k < List.length goals)%nat /\
     pareto_loop L goals models s
     = (repeat (Solve true) k ++ [SolveUnknown],
        inl SolverReturnedUnknownResultError))
  \/
  (exists models',
     pareto_loop L goals models s
     = (repeat (Solve true) (List.length goals), inr (Completed models'))
     /\ List.length models' = (List.length goals + List.length models)%nat).
Proof.
  induction goals as [|g goals IH]; intros models s.
  - right. right. exists models. split; reflexivity.
  - simpl pareto_loop. rewrite bind_solve.
    destruct (solve_answer (msat_solve L s)) as [[|]|].
    + rewrite bind_get_model.
      destruct (IH ((g, ({| model_session := s ++ [Solve true] |},
                         get_value L {| model_session := s ++ [Solve true] |} (term g)))
                      :: models) (s ++ [Solve true]))
        as [[k [Hk Hrun]]|[[k [Hk Hrun]]|[models' [Hrun Hlen]]]].
      * left. exists (S k). split; [simpl; lia|]. rewrite Hrun. reflexivity.
      * right. left. exists (S k). split; [simpl; lia|]. rewrite Hrun.
        reflexivity.
      * right. right. exists models'. rewrite Hrun. split; [reflexivity|].
        rewrite Hlen. simpl. lia.
    + left. exists O. split; [simpl; lia|]. reflexivity.
    + right. left. exists O. split; [simpl; lia|]. reflexivity.
Qed.

Lemma pareto_optimize_raise goals s evs e :
  assert_goals L goals [] (s ++ [SetOptPriority "par"]) = (evs, inl e) ->
  pareto_optimize L goals s = (SetOptPriority "par" :: evs, inl e).
Proof.
  intros H. unfold pareto_optimize. rewrite bind_set_opt_priority.
  unfold bind. rewrite H. reflexivity.
Qed.

Lemma pareto_optimize_run goals s evs objs :
  assert_goals L goals [] (s ++ [SetOptPriority "par"]) = (evs, inr objs) ->
  pareto_optimize L goals s
  = (SetOptPriority "par"
       :: evs ++ fst (pareto_loop L goals [] ((s ++ [SetOptPriority "par"]) ++ evs)),
     match snd (pareto_loop L goals [] ((s ++ [SetOptPriority "par"]) ++ evs)) with
     | inl e => inl e
     | inr _ => inr None
     end).
Proof.
  intros H. unfold pareto_optimize. rewrite bind_set_opt_priority.
  rewrite (bind_inr _ _ _ _ _ H). simpl fst. simpl snd.
  destruct (pareto_loop_cases goals [] ((s ++ [SetOptPriority "par"]) ++ evs))
    as [[k [_ Hrun]]|[[k [_ Hrun]]|[models' [Hrun _]]]];
    unfold bind; rewrite Hrun; simpl; rewrite ?app_nil_r; reflexivity.
Qed.

(** Whatever the checks answer, [pareto_optimize] returns no mapping. *)
Lemma pareto_optimize_returns_None goals s v :
  snd (pareto_optimize L goals s) = inr v -> v = None.
Proof.
  destruct (assert_goals L goals [] (s ++ [SetOptPriority "par"]))
    as [evs [e|objs]] eqn:H.
  - rewrite (pareto_optimize_raise _ _ _ _ H). discriminate.
  - rewrite (pareto_optimize_run _ _ _ _ H). simpl.
    destruct (snd (pareto_loop L goals [] _)); [discriminate|congruence].
Qed.

Lemma no_solve_not_In evs b :
  Forall (fun e => is_solve e = false) evs -> ~ In (Solve b) evs.
Proof.
  intros H Hin. rewrite Forall_forall in H. apply H in Hin. discriminate.
Qed.

Lemma repeat_true_not_false k : ~ In (Solve false) (repeat (Solve true) k).
Proof.
  intros H. apply repeat_spec in H. discriminate.
Qed.

Lemma no_solve_unanswered evs :
  Forall (fun e => is_solve e = false) evs ->
  Forall (fun e => is_answered e = false) evs.
Proof.
  intros H. eapply Forall_impl; [|exact H].
  intros e He. destruct e; try discriminate; reflexivity.
Qed.

Lemma unanswered_not_In evs b :
  Forall (fun e => is_answered e = false) evs -> ~ In (Solve b) evs.
Proof.
  intros H Hin. rewrite Forall_forall in H. apply H in Hin. discriminate.
Qed.

(** C7: when a satisfiability check of the loop of [pareto_optimize] fails,
    the call returns [None], and the failed check is the last thing it does:
    whatever the earlier checks of the call answered, nothing is returned of
    them. *)
Theorem pareto_failed_check_returns_None goals s :
  In (Solve false) (fst (pareto_optimize L goals s)) ->
  snd (pareto_optimize L goals s) = inr None /\
  exists pre,
    fst (pareto_optimize L goals s) = pre ++ [Solve false] /\
    ~ In (Solve false) pre.
Proof.
  pose proof (assert_goals_no_solve L goals [] (s ++ [SetOptPriority "par"])) as Hq.
  destruct (assert_goals L goals [] (s ++ [SetOptPriority "par"]))
    as [evs [e|objs]] eqn:H; simpl in Hq.
  - rewrite (pareto_optimize_raise _ _ _ _ H). simpl. intros [Hin|Hin].
    + discriminate.
    + exfalso. exact (no_solve_not_In _ _ Hq Hin).
  - rewrite (pareto_optimize_run _ _ _ _ H). cbn [fst snd].
    intros Hin.
    destruct (pareto_loop_cases goals [] ((s ++ [SetOptPriority "par"]) ++ evs))
      as [[k [_ Hrun]]|[[k [_ Hrun]]|[models' [Hrun _]]]];
      rewrite Hrun in *; cbn [fst snd] in *.
    + split; [reflexivity|].
      exists (SetOptPriority "par" :: evs ++ repeat (Solve true) k). split.
      * simpl. rewrite <- app_assoc. reflexivity.
      * intros [Hp|Hp]; [discriminate|].
        apply in_app_or in Hp as [Hp|Hp].
        -- exact (no_solve_not_In _ _ Hq Hp).
        -- exact (repeat_true_not_false _ Hp).
    + exfalso. destruct Hin as [Hp|Hp]; [discriminate|].
      apply in_app_or in Hp as [Hp|Hp].
      * exact (no_solve_not_In _ _ Hq Hp).
      * apply in_app_or in Hp as [Hp|Hp].
        -- exact (repeat_true_not_false _ Hp).
        -- destruct Hp as [Hp|[]]. discriminate.
    + exfalso. destruct Hin as [Hp|Hp]; [discriminate|].
      apply in_app_or in Hp as [Hp|Hp].
      * exact (no_solve_not_In _ _ Hq Hp).
      * exact (repeat_true_not_false _ Hp).
Qed.

End MultiObjective.

(** *** The generator [boxed_optimization] *)

Section Boxed.

Variable L : msat_lib.

Lemma boxed_resume_run s :
  boxed_resume L s
  = match solve_answer (msat_solve L s) with
    | Some rt =>
        ([Solve rt], inr (rt, {| model_session := s ++ [Solve rt] |}))
    | None => ([SolveUnknown], inl SolverReturnedUnknownResultError)
    end.
Proof.
  unfold boxed_resume. rewrite bind_solve.
  destruct (solve_answer (msat_solve L s)); [|reflexivity].
  rewrite bind_get_model. reflexivity.
Qed.

Lemma boxed_start_raise goals s evs e :
  assert_goals L goals [] (s ++ [SetOptPriority "box"]) = (evs, inl e) ->
  boxed_start L goals s = (SetOptPriority "box" :: evs, inl e).
Proof.
  intros H. unfold boxed_start. rewrite bind_set_opt_priority.
  unfold bind. rewrite H. reflexivity.
Qed.

Lemma boxed_start_run goals s evs objs :
  assert_goals L goals [] (s ++ [SetOptPriority "box"]) = (evs, inr objs) ->
  let h := s ++ SetOptPriority "box" :: evs in
  boxed_start L goals s
  = match solve_answer (msat_solve L h) with
    | Some rt =>
        (SetOptPriority "box" :: evs ++ [Solve rt],
         inr (rt, {| model_session := h ++ [Solve rt] |}))
    | None =>
        (SetOptPriority "box" :: evs ++ [SolveUnknown],
         inl SolverReturnedUnknownResultError)
    end.
Proof.
  intros H. cbv zeta. unfold boxed_start. rewrite bind_set_opt_priority.
  rewrite (bind_inr _ _ _ _ _ H). rewrite bind_solve.
  replace ((s ++ [SetOptPriority "box"]) ++ evs)
    with (s ++ SetOptPriority "box" :: evs)
    by (rewrite <- app_assoc; reflexivity).
  destruct (solve_answer (msat_solve L _)); [|reflexivity].
  rewrite bind_get_model. reflexivity.
Qed.

(** One [next]: some calls, none of them a satisfiability check that
    returned, then at most one such check; the generator yields the model
    taken after a check that succeeds and is closed by a check that fails
    or by an exception. *)
Lemma next_cases G s :
  exists quiet,
    Forall (fun e => is_answered e = false) quiet /\
    (next L G s
     = (quiet ++ [Solve true],
        (GEN_SUSPENDED, Yield {| model_session := s ++ quiet ++ [Solve true] |}))
     \/ next L G s = (quiet ++ [Solve false], (GEN_CLOSED, StopIteration))
     \/ exists st, next L G s = (quiet, (GEN_CLOSED, st))
                   /\ forall m, st <> Yield m).
Proof.
  destruct G as [goals| |].
  - pose proof (no_solve_unanswered _
                  (assert_goals_no_solve L goals [] (s ++ [SetOptPriority "box"])))
      as Hq.
    destruct (assert_goals L goals [] (s ++ [SetOptPriority "box"]))
      as [evs [e|objs]] eqn:H; simpl in Hq.
    + exists (SetOptPriority "box" :: evs). split; [constructor; auto|].
      right. right. exists (Raise e). split; [|discriminate].
      unfold next. rewrite (boxed_start_raise _ _ _ _ H). reflexivity.
    + unfold next. rewrite (boxed_start_run _ _ _ _ H). cbv zeta.
      destruct (solve_answer (msat_solve L _)) as [[|]|].
      * exists (SetOptPriority "box" :: evs). split; [constructor; auto|].
        left. simpl. rewrite <- ?app_assoc. reflexivity.
      * exists (SetOptPriority "box" :: evs). split; [constructor; auto|].
        right. left. reflexivity.
      * exists (SetOptPriority "box" :: evs ++ [SolveUnknown]). split.
        -- constructor; [reflexivity|]. apply Forall_app. split; [assumption|].
           repeat constructor.
        -- right. right. eexists. split; [reflexivity|discriminate].
  - unfold next. rewrite boxed_resume_run.
    destruct (solve_answer (msat_solve L s)) as [[|]|].
    + exists []. split; [constructor|]. left. reflexivity.
    + exists []. split; [constructor|]. right. left. reflexivity.
    + exists [SolveUnknown]. split; [repeat constructor|]. right. right.
      eexists. split; [reflexivity|discriminate].
  - exists []. split; [constructor|]. right. right.
    exists StopIteration. split; [reflexivity|discriminate].
Qed.

Lemma snapshots_app a : forall s b,
  snapshots s (a ++ b) = snapshots s a ++ snapshots (s ++ a) b.
Proof.
  induction a as [|e a IH]; intros s b.
  - simpl. rewrite app_nil_r. reflexivity.
  - assert (Hs : (s ++ e :: a) = ((s ++ [e]) ++ a))
      by (rewrite <- app_assoc; reflexivity).
    rewrite Hs.
    destruct e as [| | | |[|]| | | | |]; simpl; rewrite IH; reflexivity.
Qed.

Lemma snapshots_quiet quiet : forall s,
  Forall (fun e => is_answered e = false) quiet -> snapshots s quiet = [].
Proof.
  induction quiet as [|e quiet IH]; intros s H; [reflexivity|].
  inversion H as [|? ? He Hq]; subst.
  destruct e; try discriminate; simpl; apply IH; assumption.
Qed.

Lemma iterate_closed n s : iterate L n GEN_CLOSED s = ([], ([], GEN_CLOSED)).
Proof. destruct n; reflexivity. Qed.

(** The iteration of a generator in any state. *)
Lemma iterate_cases n : forall G s,
  fst (snd (iterate L n G s)) = snapshots s (fst (iterate L n G s)) /\
  (In (Solve false) (fst (iterate L n G s)) ->
   snd (snd (iterate L n G s)) = GEN_CLOSED /\
   exists pre, fst (iterate L n G s) = pre ++ [Solve false]
               /\ ~ In (Solve false) pre).
Proof.
  induction n as [|n IH]; intros G s.
  - simpl. split; [reflexivity|]. intros [].
  - simpl iterate.
    destruct (next_cases G s) as [quiet [Hq [Hn|[Hn|[st [Hn Hst]]]]]].
    + rewrite Hn. specialize (IH GEN_SUSPENDED (s ++ quiet ++ [Solve true])).
      destruct (iterate L n GEN_SUSPENDED (s ++ quiet ++ [Solve true]))
        as [e2 [ms G2]]. simpl in *. destruct IH as [IH1 IH2]. split.
      * rewrite snapshots_app, snapshots_app.
        rewrite snapshots_quiet by assumption. simpl.
        rewrite <- !app_assoc. rewrite IH1. reflexivity.
      * intros Hin. apply in_app_or in Hin as [Hin|Hin].
        { exfalso. apply in_app_or in Hin as [Hin|Hin].
          - exact (unanswered_not_In _ _ Hq Hin).
          - destruct Hin as [Hin|[]]. discriminate. }
        destruct (IH2 Hin) as [HG [pre [Hpre Hnot]]]. split; [assumption|].
        exists ((quiet ++ [Solve true]) ++ pre). split.
        { rewrite Hpre. rewrite <- !app_assoc. reflexivity. }
        intros Hp. apply in_app_or in Hp as [Hp|Hp]; [|auto].
        apply in_app_or in Hp as [Hp|Hp].
        -- exact (unanswered_not_In _ _ Hq Hp).
        -- destruct Hp as [Hp|[]]. discriminate.
    + rewrite Hn. simpl. split.
      * rewrite snapshots_app. rewrite snapshots_quiet by assumption.
        reflexivity.
      * intros _. split; [reflexivity|]. exists quiet. split; [reflexivity|].
        apply unanswered_not_In. assumption.
    + rewrite Hn. destruct st as [m| |e]; [exfalso; exact (Hst m eq_refl)| |];
        simpl; (split; [rewrite snapshots_quiet by assumption; reflexivity|]);
        intros Hin; exfalso; exact (unanswered_not_In _ _ Hq Hin).
Qed.

(** C8: iterating the generator of [boxed_optimization], however far, the
    models yielded are the models taken after each successful satisfiability
    check, one for each and in that order; a check that fails is the last
    call made and leaves the generator closed, with no model for it; and a
    closed generator, iterated again, yields nothing and calls nothing. *)
Theorem boxed_optimization_sequence goals n s :
  let evs := fst (iterate L n (boxed_optimization goals) s) in
  let models := fst (snd (iterate L n (boxed_optimization goals) s)) in
  let G := snd (snd (iterate L n (boxed_optimization goals) s)) in
  models = snapshots s evs /\
  (In (Solve false) evs ->
   G = GEN_CLOSED /\
   exists pre, evs = pre ++ [Solve false] /\ ~ In (Solve false) pre) /\
  (forall m s', iterate L m GEN_CLOSED s' = ([], ([], GEN_CLOSED))).
Proof.
  cbv zeta.
  destruct (iterate_cases n (boxed_optimization goals) s) as [H1 H2].
  split; [exact H1|]. split; [exact H2|]. intros m s'. apply iterate_closed.
Qed.

End Boxed.

(** *** Which function builds the objective of a vector goal *)

Section VectorGoals.

Variable L : msat_lib.

Lemma bind_fst_prefix {A B} (m : M A) (f : A -> M B) s :
  exists tail, fst (bind m f s) = fst (m s) ++ tail.
Proof.
  unfold bind. destruct (m s) as [e1 [e|a]].
  - exists []. simpl. rewrite app_nil_r. reflexivity.
  - destruct (f a (s ++ e1)) as [e2 r]. exists e2. reflexivity.
Qed.

Lemma assert_goals_first g rest acc s :
  exists tail,
    fst (assert_goals L (g :: rest) acc s) = fst (assert_goal L g s) ++ tail.
Proof. simpl. apply bind_fst_prefix. Qed.

(** Each entry point sets its priority and then handles the first goal. *)
Lemma after_priority_first_goal {B} mode g rest (k : list msat_objective -> M B) s :
  exists tail,
    fst (bind (msat_set_opt_priority mode)
           (fun _ => bind (assert_goals L (g :: rest) []) k) s)
    = SetOptPriority mode
        :: fst (assert_goal L g (s ++ [SetOptPriority mode])) ++ tail.
Proof.
  rewrite bind_set_opt_priority. cbn [fst].
  destruct (bind_fst_prefix (assert_goals L (g :: rest) []) k
              (s ++ [SetOptPriority mode])) as [t1 H1].
  destruct (assert_goals_first g rest [] (s ++ [SetOptPriority mode]))
    as [t2 H2].
  exists (t2 ++ t1). rewrite H1, H2. rewrite <- app_assoc. reflexivity.
Qed.

Lemma assert_goal_vector_events g ts t s :
  is_vector g = true ->
  terms g = ts ++ [t] ->
  exists tail,
    fst (assert_goal L g s)
    = map Convert (terms g)
        ++ [Call (term_object t) (Vector (map (convert L) (terms g))) []]
        ++ tail.
Proof.
  intros Hv Ht. rewrite assert_goal_vector by assumption. cbv zeta.
  replace (rebound (vector_constructor g) (terms g)) with (term_object t)
    by (rewrite Ht, rebound_last; reflexivity).
  destruct (invoke L _ _ _ _).
  - exists []. reflexivity.
  - eexists. reflexivity.
Qed.

(** X2: in [optimize] every term of a MinMax or MaxMin goal is converted, in
    order, the constructor of the tag is called on the whole converted
    sequence with the flag [False], and the handle it returns is asserted. *)
Lemma optimize_calls_vector_constructor g s :
  is_vector g = true ->
  exists o tail,
    fst (optimize L g s)
    = map Convert (terms g)
        ++ [Call (vector_constructor g) (Vector (map (convert L) (terms g))) [false];
            AssertObjective o]
        ++ tail
    /\ o = make_objective L (s ++ map Convert (terms g)) (vector_constructor g)
             (Vector (map (convert L) (terms g))) [false].
Proof.
  intros Hv.
  unfold optimize.
  destruct (bind_fst_prefix (assert_and_solve L g)
              (fun msat_obj => read_objective L msat_obj) s) as [t1 H1].
  rewrite H1.
  pose proof (make_objective_of_vector L g s Hv) as Hm.
  destruct (solve_answer
              (msat_solve L
                 (s ++ (map Convert (terms g)
                          ++ [Call (vector_constructor g)
                                (Vector (map (convert L) (terms g))) [false]])
                    ++ [AssertObjective
                          (make_objective L (s ++ map Convert (terms g))
                             (vector_constructor g)
                             (Vector (map (convert L) (terms g))) [false])])))
    as [rt|] eqn:Hr.
  - rewrite (assert_and_solve_answered L g s _ _ rt Hm Hr). cbn [fst].
    eexists _, _. split; [|reflexivity].
    rewrite <- !app_assoc. reflexivity.
  - rewrite (assert_and_solve_unknown L g s _ _ Hm Hr). cbn [fst].
    eexists _, _. split; [|reflexivity].
    rewrite <- !app_assoc. reflexivity.
Qed.

(** C1, as the code has it: in [lexicographic_optimize], [pareto_optimize]
    and [boxed_optimization] every term of a vector goal is converted, but
    the function then called on the converted sequence is the last term of
    the goal, which the conversion loop left in the variable that held the
    constructor; neither [msat_make_minmax] nor [msat_make_maxmin] is
    called. *)
Theorem vector_goal_calls_last_term g rest ts t s :
  is_vector g = true ->
  terms g = ts ++ [t] ->
  let called :=
    map Convert (terms g)
      ++ [Call (term_object t) (Vector (map (convert L) (terms g))) []] in
  (exists tail,
     fst (lexicographic_optimize L (g :: rest) s)
     = SetOptPriority "lex" :: called ++ tail) /\
  (exists tail,
     fst (pareto_optimize L (g :: rest) s)
     = SetOptPriority "par" :: called ++ tail) /\
  (exists tail,
     fst (next L (boxed_optimization (g :: rest)) s)
     = SetOptPriority "box" :: called ++ tail).
Proof.
  intros Hv Ht. cbv zeta.
  assert (Hg : forall mode, exists tail,
             fst (assert_goal L g (s ++ [SetOptPriority mode]))
             = (map Convert (terms g)
                  ++ [Call (term_object t) (Vector (map (convert L) (terms g))) []])
                 ++ tail).
  { intros mode.
    destruct (assert_goal_vector_events g ts t (s ++ [SetOptPriority mode]) Hv Ht)
      as [tail H].
    exists tail. rewrite H. rewrite <- app_assoc. reflexivity. }
  split; [|split].
  - unfold lexicographic_optimize.
    destruct (after_priority_first_goal "lex" g rest
                (fun _ => rt <- solve L ;;
                   if rt then
                     model <- get_model ;;
                     ret (Some model,
                          Some (map (fun x => get_value L model (term x)) (g :: rest)))
                   else ret (None, None)) s) as [t1 H1].
    destruct (Hg "lex") as [t2 H2].
    exists (t2 ++ t1). rewrite H1, H2. rewrite <- !app_assoc. reflexivity.
  - unfold pareto_optimize.
    destruct (after_priority_first_goal "par" g rest
                (fun _ => e <- pareto_loop L (g :: rest) [] ;;
                   match e with
                   | Returned v => ret v
                   | Completed _ => ret None
                   end) s) as [t1 H1].
    destruct (Hg "par") as [t2 H2].
    exists (t2 ++ t1). rewrite H1, H2. rewrite <- !app_assoc. reflexivity.
  - unfold next, boxed_optimization. cbn [fst]. unfold boxed_start.
    destruct (after_priority_first_goal "box" g rest
                (fun _ => rt <- solve L ;; model <- get_model ;; ret (rt, model)) s)
      as [t1 H1].
    destruct (Hg "box") as [t2 H2].
    exists (t2 ++ t1). rewrite H1, H2. rewrite <- !app_assoc. reflexivity.
Qed.

End VectorGoals.

(** *** Goals that are not supported *)

Section Unsupported.

Variable L : msat_lib.

(** C9: a goal that carries none of the four tags makes each entry point
    raise [GoalNotSupportedError] with the name "optimathsat" and the goal.
    [optimize] raises before any call; the three others raise when their
    loop reaches the goal (for the generator, when its body runs at the
    first [next]): the calls made are those of the priority and of the goals
    before it, there is none for the goal itself and none afterwards. *)
Theorem unsupported_goal_raises g :
  supported g = false ->
  let E := GoalNotSupportedError "optimathsat" g in
  (forall s, optimize L g s = ([], inl E)) /\
  (forall pre post s evs objs,
     assert_goals L pre [] (s ++ [SetOptPriority "lex"]) = (evs, inr objs) ->
     lexicographic_optimize L (pre ++ g :: post) s
     = (SetOptPriority "lex" :: evs, inl E)) /\
  (forall pre post s evs objs,
     assert_goals L pre [] (s ++ [SetOptPriority "par"]) = (evs, inr objs) ->
     pareto_optimize L (pre ++ g :: post) s
     = (SetOptPriority "par" :: evs, inl E)) /\
  (forall pre post s evs objs,
     assert_goals L pre [] (s ++ [SetOptPriority "box"]) = (evs, inr objs) ->
     next L (boxed_optimization (pre ++ g :: post)) s
     = (SetOptPriority "box" :: evs, (GEN_CLOSED, Raise E))).
Proof.
  intros Hg. cbv zeta. split; [|split; [|split]].
  - intros s. apply optimize_unsupported. assumption.
  - intros pre post s evs objs H. apply lexicographic_optimize_raise.
    apply (assert_goals_unsupported L pre g post _ _ _ objs); assumption.
  - intros pre post s evs objs H. apply pareto_optimize_raise.
    apply (assert_goals_unsupported L pre g post _ _ _ objs); assumption.
  - intros pre post s evs objs H. unfold next, boxed_optimization.
    rewrite (boxed_start_raise L _ _ evs (GoalNotSupportedError "optimathsat" g)).
    + reflexivity.
    + apply (assert_goals_unsupported L pre g post _ _ _ objs); assumption.
Qed.

End Unsupported.

(** *** [lexicographic_optimize] on goals whose constructor is kept *)

Section Lexicographic.

Variable L : msat_lib.

(** For scalar goals (and vector goals without terms) the objectives are
    all asserted, then one satisfiability check is run; when it returns,
    the result is the model with its value of the cost term of every goal,
    in order, or the pair of two [None]. *)
Lemma lexicographic_optimize_kept goals s :
  forallb keeps_constructor goals = true ->
  exists evs,
    Forall (fun e => is_solve e = false) evs /\
    let h := s ++ SetOptPriority "lex" :: evs in
    let model := {| model_session := h ++ [Solve true] |} in
    lexicographic_optimize L goals s
    = match solve_answer (msat_solve L h) with
      | Some true =>
          (SetOptPriority "lex" :: evs ++ [Solve true],
           inr (Some model,
                Some (map (fun g => get_value L model (term g)) goals)))
      | Some false =>
          (SetOptPriority "lex" :: evs ++ [Solve false], inr (None, None))
      | None =>
          (SetOptPriority "lex" :: evs ++ [SolveUnknown],
           inl SolverReturnedUnknownResultError)
      end.
Proof.
  intros H.
  destruct (assert_goals_keep_constructor L goals [] (s ++ [SetOptPriority "lex"]) H)
    as [evs [objs Hrun]].
  exists evs. split.
  - pose proof (assert_goals_no_solve L goals [] (s ++ [SetOptPriority "lex"])) as Hq.
    rewrite Hrun in Hq. exact Hq.
  - apply (lexicographic_optimize_run L goals s evs objs Hrun).
Qed.

End Lexicographic.

(** ** The code on concrete inputs *)

Ltac find_event := simpl; repeat first [left; reflexivity | right].

(** [optimize] on a MinMax goal calls [msat_make_minmax] on both converted
    terms and returns the status 2 as the value. *)
Example optimize_minmax_xy :
  optimize (scripted 1 2 0 0) minmax_xy []
  = ([Convert x; Convert y; Call msat_make_minmax (Vector [1; 2]) [false];
      AssertObjective 2; Solve true; ObjectiveResult 2 2; IsUnbounded 2 0;
      IsStrict 2 0; LoadObjectiveModel 2 0],
     inr (Some ({| model_session :=
                    [Convert x; Convert y;
                     Call msat_make_minmax (Vector [1; 2]) [false];
                     AssertObjective 2; Solve true; ObjectiveResult 2 2;
                     IsUnbounded 2 0; IsStrict 2 0; LoadObjectiveModel 2 0] |},
                PyInt 2))).
Proof. reflexivity. Qed.

Example optimize_unbounded_and_strict :
  optimize (scripted 1 2 1 1) minimize_x []
  = ([Convert x; Call msat_make_minimize (Scalar 1) [false]; AssertObjective 1;
      Solve true; ObjectiveResult 1 2; IsUnbounded 1 1],
     inl (PysmtUnboundedOptimizationError "The optimal value is unbounded")).
Proof. reflexivity. Qed.

Example optimize_strict_only :
  optimize (scripted 1 2 0 1) minimize_x []
  = ([Convert x; Call msat_make_minimize (Scalar 1) [false]; AssertObjective 1;
      Solve true; ObjectiveResult 1 2; IsUnbounded 1 0; IsStrict 1 1],
     inl (PysmtUnboundedOptimizationError "The optimal value is infinitesimal")).
Proof. reflexivity. Qed.

Example optimize_unknown :
  snd (optimize (scripted 1 (-1) 0 0) maximize_y [])
  = inl SolverReturnedUnknownResultError.
Proof. reflexivity. Qed.

Example optimize_unsat :
  snd (optimize (scripted 0 0 0 0) maximize_y []) = inr None.
Proof. reflexivity. Qed.

Example lexicographic_two_scalar_goals :
  lexicographic_optimize (scripted 1 2 0 0) [minimize_x; maximize_y] []
  = ([SetOptPriority "lex"; Convert x; Call msat_make_minimize (Scalar 1) [];
      AssertObjective 2; Convert y; Call msat_make_maximize (Scalar 2) [];
      AssertObjective 5; Solve true],
     inr (Some {| model_session :=
                   [SetOptPriority "lex"; Convert x;
                    Call msat_make_minimize (Scalar 1) []; AssertObjective 2;
                    Convert y; Call msat_make_maximize (Scalar 2) [];
                    AssertObjective 5; Solve true] |},
          Some [Constant 8; Constant 8])).
Proof. reflexivity. Qed.

Example lexicographic_failed_check :
  snd (lexicographic_optimize (scripted 0 2 0 0) [minimize_x; maximize_y] [])
  = inr (None, None).
Proof. reflexivity. Qed.

Example boxed_two_models :
  iterate (scripted 2 2 0 0) 5 (boxed_optimization [minimize_x]) []
  = ([SetOptPriority "box"; Convert x; Call msat_make_minimize (Scalar 1) [];
      AssertObjective 2; Solve true; Solve true; Solve false],
     ([{| model_session :=
            [SetOptPriority "box"; Convert x;
             Call msat_make_minimize (Scalar 1) []; AssertObjective 2;
             Solve true] |};
       {| model_session :=
            [SetOptPriority "box"; Convert x;
             Call msat_make_minimize (Scalar 1) []; AssertObjective 2;
             Solve true; Solve true] |}],
      GEN_CLOSED)).
Proof. reflexivity. Qed.

(** C2, as the code has it: with two supported goals and both checks of the
    loop succeeding, [pareto_optimize] returns [None]; the mapping filled by
    the loop is not returned. *)
Theorem pareto_optimize_drops_models :
  pareto_optimize (scripted 2 2 0 0) [minimize_x; maximize_y] []
  = ([SetOptPriority "par"; Convert x; Call msat_make_minimize (Scalar 1) [];
      AssertObjective 2; Convert y; Call msat_make_maximize (Scalar 2) [];
      AssertObjective 5; Solve true; Solve true],
     inr None).
Proof. reflexivity. Qed.

(** C3, as stated, fails: on a MinMax goal with two terms [optimize] reaches
    the Optimal outcome and the value of the returned pair is no sequence of
    two values. *)
Lemma optimize_value_arity_counterexample :
  exists m v,
    snd (optimize (scripted 1 2 0 0) minmax_xy []) = inr (Some (m, v)) /\
    ~ (exists vs, v = PyList vs
                  /\ List.length vs = List.length (terms minmax_xy)).
Proof.
  eexists _, _. split; [reflexivity|].
  intros [vs [H _]]. discriminate H.
Qed.

(** C6, as the code has it: on a Minimize goal followed by a MaxMin goal of
    two terms, [lexicographic_optimize] calls the last term of the second
    goal in place of [msat_make_maxmin]; the call is refused, no
    satisfiability check is run and no pair is returned. *)
Theorem lexicographic_vector_goal_no_check :
  lexicographic_optimize (scripted 1 2 0 0) [minimize_x; maxmin_xy] []
  = ([SetOptPriority "lex"; Convert x; Call msat_make_minimize (Scalar 1) [];
      AssertObjective 2; Convert x; Convert y;
      Call (term_object y) (Vector [1; 2]) []],
     inl (TypeError "a formula node is not an objective constructor")).
Proof. reflexivity. Qed.

(** ** Instances of the theorems *)

Lemma vector_goal_calls_last_term_witness :
  is_vector minmax_xy = true /\
  terms minmax_xy = [x] ++ [y] /\
  (exists tail,
     fst (lexicographic_optimize (scripted 1 2 0 0) [minmax_xy] [])
     = SetOptPriority "lex"
         :: ([Convert x; Convert y] ++ [Call (term_object y) (Vector [1; 2]) []])
         ++ tail).
Proof.
  split; [reflexivity|]. split; [reflexivity|].
  apply (vector_goal_calls_last_term (scripted 1 2 0 0) minmax_xy [] [x] y []);
    reflexivity.
Defined.

Lemma optimize_value_is_scalar_witness :
  snd (optimize (scripted 1 2 0 0) minmax_xy [])
    = inr (Some ({| model_session :=
                      [Convert x; Convert y;
                       Call msat_make_minmax (Vector [1; 2]) [false];
                       AssertObjective 2; Solve true; ObjectiveResult 2 2;
                       IsUnbounded 2 0; IsStrict 2 0; LoadObjectiveModel 2 0] |},
                 PyInt 2)) /\
  is_scalar_value (PyInt 2) = true /\
  forall vs, PyInt 2 <> PyList vs.
Proof.
  split; [reflexivity|].
  apply (optimize_value_is_scalar (scripted 1 2 0 0) minmax_xy []
           {| model_session :=
                [Convert x; Convert y;
                 Call msat_make_minmax (Vector [1; 2]) [false];
                 AssertObjective 2; Solve true; ObjectiveResult 2 2;
                 IsUnbounded 2 0; IsStrict 2 0; LoadObjectiveModel 2 0] |}
           (PyInt 2)).
  reflexivity.
Defined.

(** C4, as stated, fails: with a solver that does not decide the
    satisfiability check, [optimize] raises
    [SolverReturnedUnknownResultError] although no status of the objective
    is read, and no status that the library would report is Unknown. *)
Lemma optimize_unknown_check_counterexample :
  supported minimize_x = true /\
  optimize scripted_unknown_check minimize_x []
    = ([Convert x; Call msat_make_minimize (Scalar 1) [false];
        AssertObjective 1; SolveUnknown],
       inl SolverReturnedUnknownResultError) /\
  forall h o,
    objective_result scripted_unknown_check h o
      <> MSAT_OPT_UNKNOWN scripted_unknown_check.
Proof.
  split; [reflexivity|]. split; [reflexivity|].
  intros h o. simpl. lia.
Qed.

Lemma optimize_unknown_and_unsat_witness :
  supported minimize_x = true /\
  MSAT_OPT_UNKNOWN (scripted 0 0 0 0) <> MSAT_OPT_UNSAT (scripted 0 0 0 0) /\
  exists pre o,
    make_objective_of (scripted 0 0 0 0) minimize_x [] = (pre, inr o) /\
    let h := [] ++ pre ++ [AssertObjective o] in
    (solve_answer (msat_solve (scripted 0 0 0 0) h) = None ->
     optimize (scripted 0 0 0 0) minimize_x []
     = (pre ++ [AssertObjective o; SolveUnknown],
        inl SolverReturnedUnknownResultError)) /\
    (forall rt,
       solve_answer (msat_solve (scripted 0 0 0 0) h) = Some rt ->
       let optres := objective_result (scripted 0 0 0 0) (h ++ [Solve rt]) o in
       (snd (optimize (scripted 0 0 0 0) minimize_x [])
          = inl SolverReturnedUnknownResultError
        <-> optres = MSAT_OPT_UNKNOWN (scripted 0 0 0 0)) /\
       (snd (optimize (scripted 0 0 0 0) minimize_x []) = inr None
        <-> optres = MSAT_OPT_UNSAT (scripted 0 0 0 0))).
Proof.
  split; [reflexivity|]. split; [simpl; lia|].
  apply (optimize_unknown_and_unsat (scripted 0 0 0 0) minimize_x []);
    [reflexivity | simpl; lia].
Defined.


Lemma pareto_failed_check_returns_None_witness :
  In (Solve false)
     (fst (pareto_optimize (scripted 1 2 0 0) [minimize_x; maximize_y] [])) /\
  snd (pareto_optimize (scripted 1 2 0 0) [minimize_x; maximize_y] [])
    = inr None /\
  exists pre,
    fst (pareto_optimize (scripted 1 2 0 0) [minimize_x; maximize_y] [])
      = pre ++ [Solve false] /\
    ~ In (Solve false) pre.
Proof.
  split; [find_event|].
  apply (pareto_failed_check_returns_None (scripted 1 2 0 0)
           [minimize_x; maximize_y] []).
  find_event.
Defined.

Lemma boxed_optimization_sequence_witness :
  In (Solve false)
     (fst (iterate (scripted 2 2 0 0) 5 (boxed_optimization [minimize_x]) [])) /\
  snd (snd (iterate (scripted 2 2 0 0) 5 (boxed_optimization [minimize_x]) []))
    = GEN_CLOSED.
Proof.
  split; [find_event|].
  apply (proj1 (proj2 (boxed_optimization_sequence (scripted 2 2 0 0)
                         [minimize_x] 5 []))).
  find_event.
Defined.

Lemma unsupported_goal_raises_witness :
  supported maxsmt_goal = false /\
  assert_goals (scripted 1 2 0 0) [minimize_x] [] ([] ++ [SetOptPriority "lex"])
    = ([Convert x; Call msat_make_minimize (Scalar 1) []; AssertObjective 2],
       inr [2]) /\
  lexicographic_optimize (scripted 1 2 0 0)
    ([minimize_x] ++ maxsmt_goal :: [maximize_y]) []
  = ([SetOptPriority "lex"; Convert x; Call msat_make_minimize (Scalar 1) [];
      AssertObjective 2],
     inl (GoalNotSupportedError "optimathsat" maxsmt_goal)).
Proof.
  split; [reflexivity|]. split; [reflexivity|].
  apply (proj1 (proj2 (unsupported_goal_raises (scripted 1 2 0 0) maxsmt_goal
                         eq_refl))
           [minimize_x] [maximize_y] [] _ [2]).
  reflexivity.
Defined.

(** ** Further properties of [_le] and [optimize] *)

Section OptimizeBehaviour.

Variable L : msat_lib.

(** X1: [_le] returns [None] exactly for a first operand that is neither
    integer, real nor bit-vector.  For an integer or real first operand its
    outcome is that of [mgr.LE(x, y)], for a bit-vector that of
    [mgr.BVULE(x, y)], the operands in the order given: the node built, or
    the exception of the manager, which is the only exception of [_le]. *)
Theorem le_formula_iff a b :
  (_le L a b = inr None <->
   (is_int_type (get_type L a) || is_real_type (get_type L a)
    || is_bv_type (get_type L a))%bool = false) /\
  ((is_int_type (get_type L a) || is_real_type (get_type L a))%bool = true ->
   _le L a b = returning (mgr_LE L a b)) /\
  (is_bv_type (get_type L a) = true ->
   _le L a b = returning (mgr_BVULE L a b)) /\
  (forall e, _le L a b = inl e ->
     mgr_LE L a b = inl e \/ mgr_BVULE L a b = inl e).
Proof.
  unfold _le, returning.
  destruct (get_type L a); simpl;
    destruct (mgr_LE L a b) as [e1|n1]; destruct (mgr_BVULE L a b) as [e2|n2];
    repeat split; intros; try discriminate; try reflexivity;
    try (left; congruence); try (right; congruence).
Qed.

Lemma scalar_not_vector g : is_scalar g = true -> is_vector g = false.
Proof.
  unfold is_scalar, is_vector, is_minimization_goal, is_maximization_goal,
    is_minmax_goal, is_maxmin_goal.
  destruct (tag g); simpl; intros H; try reflexivity; discriminate.
Qed.

Lemma scalar_supported g : is_scalar g = true -> supported g = true.
Proof.
  intros H. rewrite supported_cases, H. apply orb_true_r.
Qed.

Lemma read_objective_unknown_run o s :
  objective_result L s o = MSAT_OPT_UNKNOWN L ->
  read_objective L o s
  = ([ObjectiveResult o (objective_result L s o)],
     inl SolverReturnedUnknownResultError).
Proof.
  intros H. unfold read_objective, bind, msat_objective_result.
  apply Z.eqb_eq in H. rewrite H. reflexivity.
Qed.

Lemma read_objective_unsat_run o s :
  objective_result L s o <> MSAT_OPT_UNKNOWN L ->
  objective_result L s o = MSAT_OPT_UNSAT L ->
  read_objective L o s
  = ([ObjectiveResult o (objective_result L s o)], inr None).
Proof.
  intros Hn H. unfold read_objective, bind, msat_objective_result.
  apply Z.eqb_neq in Hn. rewrite Hn. apply Z.eqb_eq in H. rewrite H.
  reflexivity.
Qed.

Lemma read_objective_first o s :
  exists tail,
    fst (read_objective L o s)
    = ObjectiveResult o (objective_result L s o) :: tail.
Proof.
  destruct (Z.eq_dec (objective_result L s o) (MSAT_OPT_UNKNOWN L)) as [Hk|Hk].
  { rewrite read_objective_unknown_run by assumption. eexists. reflexivity. }
  destruct (Z.eq_dec (objective_result L s o) (MSAT_OPT_UNSAT L)) as [Hu|Hu].
  { rewrite read_objective_unsat_run by assumption. eexists. reflexivity. }
  rewrite read_objective_optimal by assumption. cbv zeta.
  destruct (0 <? _); [|destruct (negb (_ =? 0)); [|destruct (negb (_ =? 0))]];
    eexists; reflexivity.
Qed.

(** The reading of the result runs no satisfiability check and raises one
    of three kinds of exception. *)
Lemma read_objective_behaviour o s :
  Forall (fun e => is_solve e = false) (fst (read_objective L o s)) /\
  forall e, snd (read_objective L o s) = inl e ->
    e = SolverReturnedUnknownResultError \/
    e = ValueError \/
    exists message, e = PysmtUnboundedOptimizationError message.
Proof.
  destruct (Z.eq_dec (objective_result L s o) (MSAT_OPT_UNKNOWN L)) as [Hk|Hk].
  { rewrite read_objective_unknown_run by assumption. simpl. split.
    - repeat constructor.
    - intros e H. left. congruence. }
  destruct (Z.eq_dec (objective_result L s o) (MSAT_OPT_UNSAT L)) as [Hu|Hu].
  { rewrite read_objective_unsat_run by assumption. simpl. split.
    - repeat constructor.
    - intros e H. discriminate. }
  rewrite read_objective_optimal by assumption. cbv zeta.
  destruct (0 <? _); [|destruct (negb (_ =? 0)); [|destruct (negb (_ =? 0))]];
    simpl; (split; [repeat constructor|]); intros e H;
    try discriminate; inversion H; eauto.
Qed.

Lemma make_objective_of_quiet g s :
  Forall (fun e => is_solve e = false) (fst (make_objective_of L g s)).
Proof.
  destruct (is_vector g) eqn:Hv.
  - rewrite make_objective_of_vector by assumption. simpl.
    apply Forall_app. split; [|repeat constructor].
    apply Forall_forall. intros e He. apply in_map_iff in He as [t [<- _]].
    reflexivity.
  - destruct (is_scalar g) eqn:Hs.
    + rewrite make_objective_of_scalar by assumption. repeat constructor.
    + rewrite make_objective_of_unsupported.
      * constructor.
      * rewrite supported_cases, Hv, Hs. reflexivity.
Qed.

Lemma checks_app a b : checks (a ++ b) = (checks a + checks b)%nat.
Proof. unfold checks. rewrite filter_app, length_app. reflexivity. Qed.

Lemma checks_quiet evs :
  Forall (fun e => is_solve e = false) evs -> checks evs = O.
Proof.
  unfold checks. induction 1 as [|e evs He _ IH]; [reflexivity|].
  simpl. rewrite He. exact IH.
Qed.

(** X3: For a Minimize or Maximize goal [optimize] converts the cost term,
    calls the constructor of the tag on it with the flag [False], asserts
    the handle that the constructor returned and runs the satisfiability
    check; unless the check is not decided, which raises, it then asks for
    the status of that handle. *)
Theorem optimize_scalar_goal g s :
  is_scalar g = true ->
  let c := convert L (term g) in
  let o := make_objective L (s ++ [Convert (term g)]) (scalar_constructor g)
             (Scalar c) [false] in
  optimize L g s
  = ([Convert (term g); Call (scalar_constructor g) (Scalar c) [false];
      AssertObjective o; SolveUnknown],
     inl SolverReturnedUnknownResultError) \/
  exists rt optres tail,
    fst (optimize L g s)
    = [Convert (term g); Call (scalar_constructor g) (Scalar c) [false];
       AssertObjective o; Solve rt; ObjectiveResult o optres] ++ tail.
Proof.
  intros Hs. cbv zeta. pose proof (scalar_not_vector g Hs) as Hv.
  pose proof (make_objective_of_scalar L g s Hv Hs) as Hm.
  destruct (solve_answer
              (msat_solve L
                 (s ++ [Convert (term g);
                        Call (scalar_constructor g)
                          (Scalar (convert L (term g))) [false]]
                    ++ [AssertObjective
                          (make_objective L (s ++ [Convert (term g)])
                             (scalar_constructor g)
                             (Scalar (convert L (term g))) [false])])))
    as [rt|] eqn:Hr.
  - right.
    pose proof (assert_and_solve_answered L g s _ _ rt Hm Hr) as Ha.
    rewrite (optimize_run _ _ _ _ _ Ha). cbn [fst].
    destruct (read_objective_first
                (make_objective L (s ++ [Convert (term g)]) (scalar_constructor g)
                   (Scalar (convert L (term g))) [false])
                (s ++ [Convert (term g);
                       Call (scalar_constructor g)
                         (Scalar (convert L (term g))) [false]]
                   ++ [AssertObjective
                         (make_objective L (s ++ [Convert (term g)])
                            (scalar_constructor g)
                            (Scalar (convert L (term g))) [false]);
                       Solve rt]))
      as [tail Ht].
    rewrite Ht. eexists rt, _, tail. reflexivity.
  - left.
    pose proof (assert_and_solve_unknown L g s _ _ Hm Hr) as Ha.
    rewrite (optimize_check_unknown _ _ _ _ Ha). reflexivity.
Qed.

End OptimizeBehaviour.

Section OptimizeOutcomes.

Variable L : msat_lib.

(** X4: [optimize] raises [GoalNotSupportedError] exactly for a goal that is not
    supported, and then with the name "optimathsat" and that goal. *)
Theorem optimize_goal_not_supported_iff g s solver goal :
  snd (optimize L g s) = inl (GoalNotSupportedError solver goal)
  <-> supported g = false /\ solver = "optimathsat" /\ goal = g.
Proof.
  split.
  - intros H. destruct (supported g) eqn:Hs.
    + exfalso.
      destruct (assert_and_solve_supported L g s Hs)
        as [pre [o [_ [Ha|[rt Ha]]]]].
      * rewrite (optimize_check_unknown _ _ _ _ Ha) in H. discriminate H.
      * rewrite (optimize_run _ _ _ _ _ Ha) in H. cbn [snd] in H.
        destruct (read_objective_behaviour L o
                    (s ++ pre ++ [AssertObjective o; Solve rt]))
          as [_ He].
        destruct (He _ H) as [E|[E|[message E]]]; discriminate E.
    + rewrite optimize_unsupported in H by assumption.
      inversion H. auto.
  - intros [Hs [-> ->]]. rewrite optimize_unsupported by assumption.
    reflexivity.
Qed.

(** X5: [optimize] runs exactly one satisfiability check for a supported goal,
    whatever the outcome, and none for a goal that is not supported. *)
Theorem optimize_checks g s :
  checks (fst (optimize L g s)) = if supported g then 1%nat else 0%nat.
Proof.
  destruct (supported g) eqn:Hs.
  - pose proof (make_objective_of_quiet L g s) as Hq.
    destruct (assert_and_solve_supported L g s Hs)
      as [pre [o [Hm [Ha|[rt Ha]]]]]; rewrite Hm in Hq.
    + rewrite (optimize_check_unknown _ _ _ _ Ha). cbn [fst].
      rewrite checks_app. rewrite (checks_quiet pre Hq). reflexivity.
    + rewrite (optimize_run _ _ _ _ _ Ha). cbn [fst].
      rewrite !checks_app. rewrite (checks_quiet pre Hq).
      rewrite (checks_quiet (fst (read_objective L o _))).
      * reflexivity.
      * apply read_objective_behaviour.
  - rewrite optimize_unsupported by assumption. reflexivity.
Qed.

(** X6: When the status of the objective is Unknown or Unsat, [optimize] asks
    the library nothing more: the status query is its last call. *)
Theorem optimize_stops_at_status g s pre o :
  assert_and_solve L g s = (pre, inr o) ->
  objective_result L (s ++ pre) o = MSAT_OPT_UNKNOWN L \/
  objective_result L (s ++ pre) o = MSAT_OPT_UNSAT L ->
  fst (optimize L g s)
  = pre ++ [ObjectiveResult o (objective_result L (s ++ pre) o)].
Proof.
  intros Ha H. rewrite (optimize_run _ _ _ _ _ Ha). cbn [fst].
  destruct (Z.eq_dec (objective_result L (s ++ pre) o) (MSAT_OPT_UNKNOWN L))
    as [Hk|Hk].
  - rewrite read_objective_unknown_run by assumption. reflexivity.
  - destruct H as [H|H]; [contradiction|].
    rewrite read_objective_unsat_run by assumption. reflexivity.
Qed.

(** The four readouts of an Optimal objective that is neither unbounded nor
    strict, and the events they leave. *)
Lemma optimize_readouts g s pre o :
  assert_and_solve L g s = (pre, inr o) ->
  let optres := objective_result L (s ++ pre) o in
  let s1 := (s ++ pre) ++ [ObjectiveResult o optres] in
  let u := objective_value_is_unbounded L s1 o in
  let s2 := s1 ++ [IsUnbounded o u] in
  let st := objective_value_is_strict L s2 o in
  let s3 := s2 ++ [IsStrict o st] in
  let check := load_objective_model L s3 o in
  let evs := pre ++ [ObjectiveResult o optres; IsUnbounded o u; IsStrict o st;
                     LoadObjectiveModel o check] in
  optres <> MSAT_OPT_UNKNOWN L ->
  optres <> MSAT_OPT_UNSAT L ->
  u <= 0 ->
  st = 0 ->
  optimize L g s
  = (evs,
     if check =? 0
     then inr (Some ({| model_session := s3 ++ [LoadObjectiveModel o check] |},
                     PyInt optres))
     else inl ValueError).
Proof.
  intros Ha. cbv zeta. intros Hk Hu Hle Hst.
  rewrite (optimize_run _ _ _ _ _ Ha).
  rewrite read_objective_optimal by assumption. cbv zeta.
  apply Z.ltb_ge in Hle. rewrite Hle. rewrite Hst. simpl negb at 1.
  cbv iota. destruct (load_objective_model L _ o =? 0); reflexivity.
Qed.


(** X8: When the optimum is bounded and attained and its model loads,
    [optimize] returns a pair: the model taken after the load, which is the
    last call, and the status of the objective. *)
Theorem optimize_success g s pre o :
  assert_and_solve L g s = (pre, inr o) ->
  let optres := objective_result L (s ++ pre) o in
  let s1 := (s ++ pre) ++ [ObjectiveResult o optres] in
  let u := objective_value_is_unbounded L s1 o in
  let s2 := s1 ++ [IsUnbounded o u] in
  let st := objective_value_is_strict L s2 o in
  let check := load_objective_model L (s2 ++ [IsStrict o st]) o in
  let evs := pre ++ [ObjectiveResult o optres; IsUnbounded o u; IsStrict o st;
                     LoadObjectiveModel o check] in
  optres <> MSAT_OPT_UNKNOWN L ->
  optres <> MSAT_OPT_UNSAT L ->
  u <= 0 ->
  st = 0 ->
  check = 0 ->
  optimize L g s
  = (evs, inr (Some ({| model_session := s ++ evs |}, PyInt optres))).
Proof.
  intros Ha. cbv zeta. intros Hk Hu Hle Hst Hc.
  rewrite (optimize_readouts g s pre o Ha Hk Hu Hle Hst).
  rewrite Hc. simpl Z.eqb. cbv iota.
  rewrite <- !app_assoc. reflexivity.
Qed.

End OptimizeOutcomes.

(** ** Further properties of the loop that asserts the objectives *)

Section AssertLoop.

Variable L : msat_lib.

Lemma called_app a b : called (a ++ b) = called a ++ called b.
Proof.
  induction a as [|e a IH]; [reflexivity|].
  destruct e; simpl; rewrite IH; reflexivity.
Qed.

Lemma asserted_app a b : asserted (a ++ b) = asserted a ++ asserted b.
Proof.
  induction a as [|e a IH]; [reflexivity|].
  destruct e; simpl; rewrite IH; reflexivity.
Qed.

Lemma converted_app a b : converted (a ++ b) = converted a ++ converted b.
Proof.
  induction a as [|e a IH]; [reflexivity|].
  destruct e; simpl; rewrite IH; reflexivity.
Qed.

Lemma called_conversions ts : called (map Convert ts) = [].
Proof. induction ts; simpl; auto. Qed.

Lemma asserted_conversions ts : asserted (map Convert ts) = [].
Proof. induction ts; simpl; auto. Qed.

Lemma converted_conversions ts : converted (map Convert ts) = ts.
Proof. induction ts as [|t ts IH]; simpl; [|rewrite IH]; reflexivity. Qed.

(** One goal, when nothing is raised: one call, one assertion, and what is
    asserted is what the call returned. *)
Lemma assert_goal_one g s evs o :
  assert_goal L g s = (evs, inr o) ->
  asserted evs = [o] /\ List.length (called evs) = 1%nat
  /\ Forall (fun e => is_objective_event e = true) evs.
Proof.
  destruct (is_vector g) eqn:Hv.
  - rewrite assert_goal_vector by assumption. cbv zeta.
    assert (Hc : Forall (fun e => is_objective_event e = true)
                   (map Convert (terms g))).
    { apply Forall_forall. intros e He. apply in_map_iff in He as [t [<- _]].
      reflexivity. }
    destruct (invoke L _ _ _ _); intros H; inversion H; subst.
    rewrite asserted_app, called_app, asserted_conversions, called_conversions.
    repeat split. apply Forall_app. split; [assumption|repeat constructor].
  - destruct (is_scalar g) eqn:Hs.
    + rewrite assert_goal_scalar by assumption. cbv zeta.
      intros H. inversion H; subst. repeat split. repeat constructor.
    + rewrite assert_goal_unsupported; [discriminate|].
      rewrite supported_cases, Hv, Hs. reflexivity.
Qed.

Lemma assert_goal_events g s :
  Forall (fun e => is_objective_event e = true) (fst (assert_goal L g s)).
Proof.
  destruct (assert_goal L g s) as [evs [e|o]] eqn:H.
  - simpl. destruct (is_vector g) eqn:Hv.
    + rewrite assert_goal_vector in H by assumption. cbv zeta in H.
      destruct (invoke L _ _ _ _); inversion H; subst.
      apply Forall_app. split; [|repeat constructor].
      apply Forall_forall. intros e' He. apply in_map_iff in He as [t [<- _]].
      reflexivity.
    + destruct (is_scalar g) eqn:Hs.
      * rewrite assert_goal_scalar in H by assumption. discriminate H.
      * rewrite assert_goal_unsupported in H.
        -- inversion H. constructor.
        -- rewrite supported_cases, Hv, Hs. reflexivity.
  - simpl. apply (assert_goal_one g s evs o H).
Qed.

Lemma assert_goals_events goals : forall acc s,
  Forall (fun e => is_objective_event e = true)
    (fst (assert_goals L goals acc s)).
Proof.
  induction goals as [|g goals IH]; intros acc s; simpl.
  - constructor.
  - unfold bind. pose proof (assert_goal_events g s) as Hg.
    destruct (assert_goal L g s) as [e1 [e|o]]; simpl in *; auto.
    specialize (IH (acc ++ [o]) (s ++ e1)).
    destruct (assert_goals L goals (acc ++ [o]) (s ++ e1)) as [e2 r]; simpl in *.
    apply Forall_app; split; assumption.
Qed.

(** The events of one goal, when nothing is raised: conversions, one call,
    and the assertion of the result of that call. *)
Lemma assert_goal_block g s evs o :
  assert_goal L g s = (evs, inr o) ->
  exists ts f a,
    evs = map Convert ts ++ [Call f a []; AssertObjective o] /\
    invoke L f (s ++ map Convert ts) a [] = inr o.
Proof.
  destruct (is_vector g) eqn:Hv.
  - rewrite assert_goal_vector by assumption. cbv zeta.
    destruct (invoke L _ _ _ _) as [e|o'] eqn:Hi; intros H; inversion H; subst.
    eexists (terms g), _, _. split; [reflexivity|]. exact Hi.
  - destruct (is_scalar g) eqn:Hs.
    + rewrite assert_goal_scalar by assumption. cbv zeta.
      intros H. inversion H; subst.
      exists [term g], (scalar_constructor g), (Scalar (convert L (term g))).
      split; [reflexivity|].
      apply invoke_constructor. intro. apply scalar_constructor_not_term.
    + rewrite assert_goal_unsupported; [discriminate|].
      rewrite supported_cases, Hv, Hs. reflexivity.
Qed.

Lemma asserts_results_any_last s last evs :
  asserts_results L s None evs -> asserts_results L s last evs.
Proof.
  destruct evs as [|e rest]; [trivial|].
  destruct e; simpl; intros [H1 H2]; (split; [|exact H2]); trivial.
  discriminate H1.
Qed.

Lemma asserts_results_block ts : forall s last f a o rest,
  invoke L f (s ++ map Convert ts) a [] = inr o ->
  asserts_results L (s ++ map Convert ts ++ [Call f a []; AssertObjective o])
    None rest ->
  asserts_results L s last
    ((map Convert ts ++ [Call f a []; AssertObjective o]) ++ rest).
Proof.
  induction ts as [|t ts IH]; intros s last f a o rest Hi Hrest.
  - simpl in *. rewrite app_nil_r in Hi. rewrite Hi.
    split; [trivial|]. split; [reflexivity|].
    rewrite <- app_assoc. exact Hrest.
  - simpl. split; [trivial|]. apply IH.
    + rewrite <- app_assoc. exact Hi.
    + rewrite <- app_assoc. exact Hrest.
Qed.

(** X9: When the loop over the goals ends without an exception, one function
    has been called and one objective asserted for every goal, every
    objective asserted is the result of the call made just before it, and
    the list [msat_objs] holds the asserted objectives in the order of the
    goals. *)
Theorem assert_goals_collects goals : forall acc s evs objs,
  assert_goals L goals acc s = (evs, inr objs) ->
  objs = acc ++ asserted evs /\
  List.length (asserted evs) = List.length goals /\
  List.length (called evs) = List.length goals /\
  asserts_results L s None evs.
Proof.
  induction goals as [|g goals IH]; intros acc s evs objs H; simpl in H.
  - inversion H; subst. simpl. rewrite app_nil_r. auto.
  - unfold bind in H.
    destruct (assert_goal L g s) as [e1 [e|o]] eqn:Hg; [discriminate|].
    destruct (assert_goals L goals (acc ++ [o]) (s ++ e1)) as [e2 r] eqn:Hr.
    inversion H; subst.
    destruct (assert_goal_one g s e1 o Hg) as [Ha [Hc _]].
    destruct (IH _ _ _ _ Hr) as [Hobjs [Hla [Hlc Hres]]].
    rewrite asserted_app, called_app, !length_app, Ha, Hc, Hla, Hlc.
    split; [|split; [reflexivity|split; [reflexivity|]]].
    + rewrite Hobjs. rewrite <- app_assoc. reflexivity.
    + destruct (assert_goal_block g s e1 o Hg) as [ts [f [a [He Hi]]]].
      subst e1. apply asserts_results_block; assumption.
Qed.

(** X10: For Minimize and Maximize goals the loop raises nothing: it converts
    the cost term of every goal and calls the constructor of its tag, in the
    order of the goals. *)
Theorem assert_goals_scalar goals : forall acc s,
  forallb is_scalar goals = true ->
  exists evs objs,
    assert_goals L goals acc s = (evs, inr objs) /\
    converted evs = map term goals /\
    called evs = map scalar_constructor goals.
Proof.
  induction goals as [|g goals IH]; intros acc s H; simpl in H.
  - exists [], acc. repeat split.
  - apply andb_true_iff in H as [Hg Hr].
    pose proof (assert_goal_scalar L g s (scalar_not_vector g Hg) Hg) as Hrun.
    cbv zeta in Hrun.
    destruct (IH (acc ++ [make_objective L (s ++ [Convert (term g)])
                            (scalar_constructor g)
                            (Scalar (convert L (term g))) []])
                (s ++ [Convert (term g);
                       Call (scalar_constructor g) (Scalar (convert L (term g))) [];
                       AssertObjective
                         (make_objective L (s ++ [Convert (term g)])
                            (scalar_constructor g)
                            (Scalar (convert L (term g))) [])]) Hr)
      as [e2 [objs [Hrest [Hconv Hcall]]]].
    eexists _, objs. split.
    + simpl. unfold bind. rewrite Hrun, Hrest. reflexivity.
    + simpl. rewrite Hconv, Hcall. split; reflexivity.
Qed.

(** X11: The loop over a concatenation of two lists of goals is the loop over
    the first list followed by the loop over the second; an exception in the
    first list ends it there, with no call for the second. *)
Theorem assert_goals_concat pre post acc s e1 :
  (forall e,
     assert_goals L pre acc s = (e1, inl e) ->
     assert_goals L (pre ++ post) acc s = (e1, inl e)) /\
  (forall objs,
     assert_goals L pre acc s = (e1, inr objs) ->
     assert_goals L (pre ++ post) acc s
     = (e1 ++ fst (assert_goals L post objs (s ++ e1)),
        snd (assert_goals L post objs (s ++ e1)))).
Proof.
  split.
  - intros e H. rewrite assert_goals_app. apply bind_inl. assumption.
  - intros objs H. rewrite assert_goals_app. apply bind_inr. assumption.
Qed.

(** X12: A MinMax or MaxMin goal without terms: nothing is converted, and in
    this case alone the constructor of the tag is what the loop of the
    multi-objective entry points calls, on the empty sequence; [optimize]
    calls it with the flag [False]. *)
Theorem empty_vector_goal g s :
  is_vector g = true ->
  terms g = [] ->
  make_objective_of L g s
  = ([Call (vector_constructor g) (Vector []) [false]],
     inr (make_objective L s (vector_constructor g) (Vector []) [false])) /\
  assert_goal L g s
  = ([Call (vector_constructor g) (Vector []) [];
      AssertObjective (make_objective L s (vector_constructor g) (Vector []) [])],
     inr (make_objective L s (vector_constructor g) (Vector []) [])).
Proof.
  intros Hv Ht. split.
  - rewrite make_objective_of_vector by assumption. rewrite Ht. simpl.
    rewrite app_nil_r. reflexivity.
  - rewrite assert_goal_vector by assumption. rewrite Ht. cbv zeta. simpl.
    rewrite app_nil_r.
    rewrite invoke_constructor by (intro; apply vector_constructor_not_term).
    reflexivity.
Qed.

End AssertLoop.

(** ** Further properties of the multi-objective entry points *)

Section EntryPoints.

Variable L : msat_lib.

Lemma objective_events_no_priority evs :
  Forall (fun e => is_objective_event e = true) evs ->
  Forall (fun e => is_set_priority e = false) evs.
Proof.
  intros H. eapply Forall_impl; [|exact H].
  intros e He. destruct e; try discriminate; reflexivity.
Qed.

Lemma checks_only_no_priority evs :
  Forall (fun e => is_solve e = true) evs ->
  Forall (fun e => is_set_priority e = false) evs.
Proof.
  intros H. eapply Forall_impl; [|exact H].
  intros e He. destruct e; try discriminate; reflexivity.
Qed.

Lemma checks_only_asserted evs :
  Forall (fun e => is_solve e = true) evs -> asserted evs = [].
Proof.
  induction 1 as [|e evs He _ IH]; [reflexivity|].
  destruct e; try discriminate; exact IH.
Qed.

Lemma checks_only_count evs :
  Forall (fun e => is_solve e = true) evs -> checks evs = List.length evs.
Proof.
  unfold checks. induction 1 as [|e evs He _ IH]; [reflexivity|].
  simpl. rewrite He. simpl. rewrite IH. reflexivity.
Qed.

Lemma repeat_checks_only b k :
  Forall (fun e => is_solve e = true) (repeat (Solve b) k).
Proof. induction k; simpl; constructor; auto. Qed.

(** The events of [lexicographic_optimize]: the priority, the calls that
    build and assert objectives, then at most one satisfiability check. *)
Lemma lexicographic_cases goals s :
  exists quiet solves,
    fst (lexicographic_optimize L goals s)
    = SetOptPriority "lex" :: quiet ++ solves /\
    Forall (fun e => is_objective_event e = true) quiet /\
    Forall (fun e => is_solve e = true) solves /\
    (List.length solves <= 1)%nat.
Proof.
  pose proof (assert_goals_events L goals [] (s ++ [SetOptPriority "lex"])) as Hq.
  destruct (assert_goals L goals [] (s ++ [SetOptPriority "lex"]))
    as [evs [e|objs]] eqn:H; simpl in Hq.
  - exists evs, []. rewrite (lexicographic_optimize_raise L _ _ _ _ H). simpl.
    rewrite app_nil_r. repeat split; auto.
  - pose proof (lexicographic_optimize_run L goals s evs objs H) as Hrun.
    cbv zeta in Hrun. rewrite Hrun.
    destruct (solve_answer (msat_solve L _)) as [[|]|];
      eexists evs, [_]; (split; [reflexivity|]); repeat split; auto;
      repeat constructor.
Qed.

(** X13: Whatever the goals, [lexicographic_optimize] sets the priority,
    then only builds and asserts objectives, and then either propagates the
    exception of that loop, with no satisfiability check, or runs one
    check, its last call: a check that is not decided raises
    [SolverReturnedUnknownResultError], a check that succeeds gives the
    model taken after it with its values of the cost terms of all the
    goals, in order, and a check that fails gives two [None]. *)
Theorem lexicographic_optimize_outcomes goals s :
  exists quiet,
    Forall (fun e => is_objective_event e = true) quiet /\
    ((exists e,
        assert_goals L goals [] (s ++ [SetOptPriority "lex"]) = (quiet, inl e) /\
        lexicographic_optimize L goals s
        = (SetOptPriority "lex" :: quiet, inl e)) \/
     let h := s ++ SetOptPriority "lex" :: quiet in
     let model := {| model_session := h ++ [Solve true] |} in
     lexicographic_optimize L goals s
     = match solve_answer (msat_solve L h) with
       | Some true =>
           (SetOptPriority "lex" :: quiet ++ [Solve true],
            inr (Some model,
                 Some (map (fun g => get_value L model (term g)) goals)))
       | Some false =>
           (SetOptPriority "lex" :: quiet ++ [Solve false],
            inr (None, None))
       | None =>
           (SetOptPriority "lex" :: quiet ++ [SolveUnknown],
            inl SolverReturnedUnknownResultError)
       end).
Proof.
  pose proof (assert_goals_events L goals [] (s ++ [SetOptPriority "lex"])) as Hq.
  destruct (assert_goals L goals [] (s ++ [SetOptPriority "lex"]))
    as [evs [e|objs]] eqn:H; simpl in Hq; exists evs; (split; [assumption|]).
  - left. exists e. split; [reflexivity|].
    apply lexicographic_optimize_raise. assumption.
  - right. apply (lexicographic_optimize_run L goals s evs objs H).
Qed.

(** The events of [pareto_optimize]: the priority, the calls that build and
    assert objectives, then only satisfiability checks, no more than there
    are goals. *)
Lemma pareto_cases goals s :
  exists quiet solves,
    fst (pareto_optimize L goals s) = SetOptPriority "par" :: quiet ++ solves /\
    Forall (fun e => is_objective_event e = true) quiet /\
    Forall (fun e => is_solve e = true) solves /\
    (List.length solves <= List.length goals)%nat.
Proof.
  pose proof (assert_goals_events L goals [] (s ++ [SetOptPriority "par"])) as Hq.
  destruct (assert_goals L goals [] (s ++ [SetOptPriority "par"]))
    as [evs [e|objs]] eqn:H; simpl in Hq.
  - exists evs, []. rewrite (pareto_optimize_raise L _ _ _ _ H). simpl.
    rewrite app_nil_r. repeat split; auto. lia.
  - rewrite (pareto_optimize_run L _ _ _ _ H). cbn [fst].
    exists evs, (fst (pareto_loop L goals [] ((s ++ [SetOptPriority "par"]) ++ evs))).
    split; [reflexivity|]. split; [assumption|].
    destruct (pareto_loop_cases L goals [] ((s ++ [SetOptPriority "par"]) ++ evs))
      as [[k [Hk Hrun]]|[[k [Hk Hrun]]|[models' [Hrun _]]]];
      rewrite Hrun; cbn [fst].
    + split.
      * apply Forall_app. split; [apply repeat_checks_only|repeat constructor].
      * rewrite length_app, repeat_length. simpl. lia.
    + split.
      * apply Forall_app. split; [apply repeat_checks_only|repeat constructor].
      * rewrite length_app, repeat_length. simpl. lia.
    + split; [apply repeat_checks_only|]. rewrite repeat_length. lia.
Qed.

(** X14: [pareto_optimize] runs at most one satisfiability check per goal; on
    an empty list of goals it runs none. *)
Theorem pareto_optimize_checks goals s :
  (checks (fst (pareto_optimize L goals s)) <= List.length goals)%nat.
Proof.
  destruct (pareto_cases goals s) as [quiet [solves [He [Hq [Hs Hl]]]]].
  rewrite He.
  change (SetOptPriority "par" :: quiet ++ solves)
    with (([SetOptPriority "par"] ++ quiet) ++ solves).
  rewrite checks_app. rewrite (checks_only_count solves Hs).
  rewrite checks_quiet; [simpl; exact Hl|].
  constructor; [reflexivity|].
  eapply Forall_impl; [|exact Hq]. intros e H.
  destruct e; try discriminate; reflexivity.
Qed.

(** X15: Whenever [pareto_optimize] returns, it returns [None]: for no goals and
    no answers of the solver is the mapping of the loop returned. *)
Theorem pareto_optimize_never_a_mapping goals s :
  match snd (pareto_optimize L goals s) with
  | inr (Some _) => False
  | _ => True
  end.
Proof.
  destruct (assert_goals L goals [] (s ++ [SetOptPriority "par"]))
    as [evs [e|objs]] eqn:H.
  - rewrite (pareto_optimize_raise L _ _ _ _ H). exact I.
  - rewrite (pareto_optimize_run L _ _ _ _ H). cbn [snd].
    destruct (snd (pareto_loop L goals [] _)); exact I.
Qed.

(** A generator that was suspended at its [yield] only runs satisfiability
    checks when it is iterated, one for each [next]. *)
Lemma iterate_suspended n : forall s,
  Forall (fun e => is_solve e = true) (fst (iterate L n GEN_SUSPENDED s)) /\
  (List.length (fst (iterate L n GEN_SUSPENDED s)) <= n)%nat.
Proof.
  induction n as [|n IH]; intros s.
  - simpl. split; [constructor|lia].
  - cbn [iterate]. unfold next. rewrite boxed_resume_run.
    destruct (solve_answer (msat_solve L s)) as [[|]|];
      cbn [fst snd boxed_while].
    + specialize (IH (s ++ [Solve true])).
      destruct (iterate L n GEN_SUSPENDED (s ++ [Solve true])) as [e2 [ms G2]].
      simpl in *. destruct IH as [IH1 IH2]. split.
      * constructor; [reflexivity|assumption].
      * lia.
    + simpl. split; [repeat constructor|lia].
    + simpl. split; [repeat constructor|lia].
Qed.

Lemma assert_goal_asserted_le g s :
  (List.length (asserted (fst (assert_goal L g s))) <= 1)%nat.
Proof.
  destruct (is_vector g) eqn:Hv.
  - rewrite assert_goal_vector by assumption. cbv zeta.
    destruct (invoke L _ _ _ _); cbn [fst];
      rewrite asserted_app, asserted_conversions; simpl; lia.
  - destruct (is_scalar g) eqn:Hs.
    + rewrite assert_goal_scalar by assumption. simpl. lia.
    + rewrite assert_goal_unsupported.
      * simpl. lia.
      * rewrite supported_cases, Hv, Hs. reflexivity.
Qed.

Lemma assert_goals_asserted_le goals : forall acc s,
  (List.length (asserted (fst (assert_goals L goals acc s)))
   <= List.length goals)%nat.
Proof.
  induction goals as [|g goals IH]; intros acc s; simpl.
  - lia.
  - unfold bind. pose proof (assert_goal_asserted_le g s) as Hg.
    destruct (assert_goal L g s) as [e1 [e|o]]; simpl in *; [lia|].
    specialize (IH (acc ++ [o]) (s ++ e1)).
    destruct (assert_goals L goals (acc ++ [o]) (s ++ e1)) as [e2 r]; simpl in *.
    rewrite asserted_app, length_app. lia.
Qed.

(** The events of an iteration of the generator of [boxed_optimization]. *)
Lemma boxed_cases goals n s :
  exists quiet solves,
    fst (iterate L (S n) (boxed_optimization goals) s)
    = SetOptPriority "box" :: quiet ++ solves /\
    Forall (fun e => is_objective_event e = true) quiet /\
    (List.length (asserted quiet) <= List.length goals)%nat /\
    Forall (fun e => is_solve e = true) solves /\
    (List.length solves <= S n)%nat.
Proof.
  pose proof (assert_goals_events L goals [] (s ++ [SetOptPriority "box"])) as Hq.
  pose proof (assert_goals_asserted_le goals [] (s ++ [SetOptPriority "box"])) as Hl.
  destruct (assert_goals L goals [] (s ++ [SetOptPriority "box"]))
    as [evs [e|objs]] eqn:H; simpl in Hq, Hl.
  - exists evs, []. cbn [iterate]. unfold next, boxed_optimization.
    rewrite (boxed_start_raise L _ _ _ _ H). simpl. rewrite app_nil_r.
    split; [reflexivity|]. split; [assumption|]. split; [assumption|].
    split; [constructor|lia].
  - cbn [iterate]. unfold next, boxed_optimization.
    rewrite (boxed_start_run L _ _ _ _ H). cbv zeta.
    destruct (solve_answer (msat_solve L (s ++ SetOptPriority "box" :: evs)))
      as [[|]|]; cbn [fst snd boxed_while].
    + destruct (iterate_suspended n
                  (s ++ SetOptPriority "box" :: evs ++ [Solve true]))
        as [Hs Hn].
      destruct (iterate L n GEN_SUSPENDED
                  (s ++ SetOptPriority "box" :: evs ++ [Solve true]))
        as [e2 [ms G2]]. simpl in Hs, Hn.
      exists evs, (Solve true :: e2). split.
      * simpl. rewrite <- app_assoc. reflexivity.
      * split; [assumption|]. split; [assumption|]. split.
        -- constructor; [reflexivity|assumption].
        -- simpl. lia.
    + exists evs, [Solve false]. split; [reflexivity|].
      split; [assumption|]. split; [assumption|].
      split; [repeat constructor|simpl; lia].
    + exists evs, [SolveUnknown]. split; [reflexivity|].
      split; [assumption|]. split; [assumption|].
      split; [repeat constructor|simpl; lia].
Qed.

(** X16: Each multi-objective entry point sets its priority once, as its first
    call: no later call of [lexicographic_optimize], of [pareto_optimize] or
    of any iteration of the generator of [boxed_optimization] sets it
    again. *)
Theorem priority_set_once goals s :
  (exists tail,
     fst (lexicographic_optimize L goals s) = SetOptPriority "lex" :: tail /\
     Forall (fun e => is_set_priority e = false) tail) /\
  (exists tail,
     fst (pareto_optimize L goals s) = SetOptPriority "par" :: tail /\
     Forall (fun e => is_set_priority e = false) tail) /\
  (forall n, exists tail,
     fst (iterate L (S n) (boxed_optimization goals) s)
     = SetOptPriority "box" :: tail /\
     Forall (fun e => is_set_priority e = false) tail).
Proof.
  split; [|split].
  - destruct (lexicographic_cases goals s) as [quiet [solves [He [Hq [Hs _]]]]].
    exists (quiet ++ solves). split; [assumption|].
    apply Forall_app. split.
    + apply objective_events_no_priority. assumption.
    + apply checks_only_no_priority. assumption.
  - destruct (pareto_cases goals s) as [quiet [solves [He [Hq [Hs _]]]]].
    exists (quiet ++ solves). split; [assumption|].
    apply Forall_app. split.
    + apply objective_events_no_priority. assumption.
    + apply checks_only_no_priority. assumption.
  - intros n.
    destruct (boxed_cases goals n s) as [quiet [solves [He [Hq [_ [Hs _]]]]]].
    exists (quiet ++ solves). split; [assumption|].
    apply Forall_app. split.
    + apply objective_events_no_priority. assumption.
    + apply checks_only_no_priority. assumption.
Qed.

(** X17: Iterating the generator of [boxed_optimization] asserts no more
    objectives than there are goals and runs at most one satisfiability
    check for each [next]: the objectives are asserted by the first [next]
    only, however many models are pulled. *)
Theorem boxed_asserts_once goals n s :
  let evs := fst (iterate L n (boxed_optimization goals) s) in
  (List.length (asserted evs) <= List.length goals)%nat /\
  (checks evs <= n)%nat.
Proof.
  cbv zeta. destruct n as [|n].
  - unfold checks. simpl. split; lia.
  - destruct (boxed_cases goals n s)
      as [quiet [solves [He [Hq [Hl [Hs Hn]]]]]].
    rewrite He.
    change (SetOptPriority "box" :: quiet ++ solves)
      with (([SetOptPriority "box"] ++ quiet) ++ solves).
    rewrite asserted_app, checks_app, length_app.
    rewrite (checks_only_asserted solves Hs), (checks_only_count solves Hs).
    rewrite checks_quiet.
    + simpl. split; lia.
    + constructor; [reflexivity|].
      eapply Forall_impl; [|exact Hq]. intros e H.
      destruct e; try discriminate; reflexivity.
Qed.

(** The state of a generator after [n] calls of [next]. *)
Lemma iterate_state n : forall G s,
  (List.length (fst (snd (iterate L n G s))) = n /\
   (n = O -> snd (snd (iterate L n G s)) = G) /\
   (n <> O -> snd (snd (iterate L n G s)) = GEN_SUSPENDED)) \/
  ((List.length (fst (snd (iterate L n G s))) < n)%nat /\
   snd (snd (iterate L n G s)) = GEN_CLOSED).
Proof.
  induction n as [|n IH]; intros G s.
  - left. simpl. repeat split; congruence.
  - cbn [iterate].
    destruct (next_cases L G s) as [quiet [_ [Hn|[Hn|[st [Hn Hst]]]]]].
    + rewrite Hn. specialize (IH GEN_SUSPENDED (s ++ quiet ++ [Solve true])).
      destruct (iterate L n GEN_SUSPENDED (s ++ quiet ++ [Solve true]))
        as [e2 [ms G2]]. simpl in *.
      destruct IH as [[Hlen [H0 H1]]|[Hlen HG]].
      * left. split; [lia|]. split; [discriminate|]. intros _.
        destruct n; [apply H0; reflexivity|apply H1; discriminate].
      * right. split; [lia|assumption].
    + rewrite Hn. right. simpl. split; [lia|reflexivity].
    + rewrite Hn. right.
      destruct st as [m| |e]; [exfalso; exact (Hst m eq_refl)| |];
        simpl; split; try lia; reflexivity.
Qed.

(** X18: After at least one [next], the generator of [boxed_optimization] is
    suspended exactly when every [next] yielded a model, and it is closed
    otherwise; it never stays in the state in which it was created. *)
Theorem boxed_generator_state goals n s :
  let models := fst (snd (iterate L (S n) (boxed_optimization goals) s)) in
  let G := snd (snd (iterate L (S n) (boxed_optimization goals) s)) in
  (List.length models = S n /\ G = GEN_SUSPENDED) \/
  ((List.length models < S n)%nat /\ G = GEN_CLOSED).
Proof.
  cbv zeta.
  destruct (iterate_state (S n) (boxed_optimization goals) s)
    as [[Hlen [_ H1]]|H].
  - left. split; [assumption|]. apply H1. discriminate.
  - right. assumption.
Qed.

End EntryPoints.

(** ** Instances of the further properties *)

Lemma optimize_scalar_goal_witness :
  is_scalar maximize_y = true /\
  (optimize (scripted 1 2 0 0) maximize_y []
   = ([Convert y; Call msat_make_maximize (Scalar 2) [false];
       AssertObjective 1; SolveUnknown],
      inl SolverReturnedUnknownResultError) \/
   exists rt optres tail,
     fst (optimize (scripted 1 2 0 0) maximize_y [])
     = [Convert y; Call msat_make_maximize (Scalar 2) [false];
        AssertObjective 1; Solve rt; ObjectiveResult 1 optres] ++ tail).
Proof.
  split; [reflexivity|].
  apply (optimize_scalar_goal (scripted 1 2 0 0) maximize_y []).
  reflexivity.
Defined.

Lemma optimize_stops_at_status_witness :
  assert_and_solve (scripted 0 0 0 0) minimize_x []
    = ([Convert x; Call msat_make_minimize (Scalar 1) [false];
        AssertObjective 1; Solve false], inr 1) /\
  fst (optimize (scripted 0 0 0 0) minimize_x [])
    = [Convert x; Call msat_make_minimize (Scalar 1) [false];
       AssertObjective 1; Solve false] ++ [ObjectiveResult 1 0].
Proof.
  split; [reflexivity|].
  apply (optimize_stops_at_status (scripted 0 0 0 0) minimize_x []
           [Convert x; Call msat_make_minimize (Scalar 1) [false];
            AssertObjective 1; Solve false] 1).
  - reflexivity.
  - right. reflexivity.
Defined.


Lemma optimize_success_witness :
  assert_and_solve (scripted 1 2 0 0) minimize_x []
    = ([Convert x; Call msat_make_minimize (Scalar 1) [false];
        AssertObjective 1; Solve true], inr 1) /\
  optimize (scripted 1 2 0 0) minimize_x []
    = ([Convert x; Call msat_make_minimize (Scalar 1) [false];
        AssertObjective 1; Solve true]
         ++ [ObjectiveResult 1 2; IsUnbounded 1 0; IsStrict 1 0;
             LoadObjectiveModel 1 0],
       inr (Some ({| model_session :=
                      [] ++ [Convert x; Call msat_make_minimize (Scalar 1) [false];
                             AssertObjective 1; Solve true]
                         ++ [ObjectiveResult 1 2; IsUnbounded 1 0; IsStrict 1 0;
                             LoadObjectiveModel 1 0] |},
                  PyInt 2))).
Proof.
  split; [reflexivity|].
  apply (optimize_success (scripted 1 2 0 0) minimize_x []
           [Convert x; Call msat_make_minimize (Scalar 1) [false];
            AssertObjective 1; Solve true] 1).
  - reflexivity.
  - simpl. lia.
  - simpl. lia.
  - simpl. lia.
  - reflexivity.
  - reflexivity.
Defined.

Lemma assert_goals_collects_witness :
  assert_goals (scripted 1 2 0 0) [minimize_x; maximize_y] [7] []
    = ([Convert x; Call msat_make_minimize (Scalar 1) []; AssertObjective 1;
        Convert y; Call msat_make_maximize (Scalar 2) []; AssertObjective 4],
       inr [7; 1; 4]) /\
  [7; 1; 4]
    = [7] ++ asserted
               [Convert x; Call msat_make_minimize (Scalar 1) [];
                AssertObjective 1; Convert y;
                Call msat_make_maximize (Scalar 2) []; AssertObjective 4] /\
  asserts_results (scripted 1 2 0 0) [] None
    [Convert x; Call msat_make_minimize (Scalar 1) []; AssertObjective 1;
     Convert y; Call msat_make_maximize (Scalar 2) []; AssertObjective 4].
Proof.
  split; [reflexivity|].
  pose proof (assert_goals_collects (scripted 1 2 0 0) [minimize_x; maximize_y]
                [7] [] _ _ eq_refl) as H.
  split; [exact (proj1 H)|exact (proj2 (proj2 (proj2 H)))].
Defined.

(** An assertion of a handle that the call before it did not return is
    told apart. *)
Example asserts_results_rejects :
  ~ asserts_results (scripted 1 2 0 0) [] None
      [Convert x; Call msat_make_minimize (Scalar 1) []; AssertObjective 7].
Proof.
  simpl. intros [_ [_ [H _]]]. discriminate H.
Qed.

Example le_operands_of_different_types :
  _le (scripted 0 0 0 0) (Symbol "v") x
  = inl (PysmtTypeError "operands of different types").
Proof. reflexivity. Qed.

Example le_bit_vectors :
  _le (scripted 0 0 0 0) (Symbol "v") (Symbol "v")
  = inr (Some (BVULE (Symbol "v") (Symbol "v"))).
Proof. reflexivity. Qed.

Example lexicographic_unknown_check :
  lexicographic_optimize scripted_unknown_check [minimize_x] []
  = ([SetOptPriority "lex"; Convert x; Call msat_make_minimize (Scalar 1) [];
      AssertObjective 2; SolveUnknown],
     inl SolverReturnedUnknownResultError).
Proof. reflexivity. Qed.

Lemma assert_goals_scalar_witness :
  forallb is_scalar [minimize_x; maximize_y] = true /\
  exists evs objs,
    assert_goals (scripted 1 2 0 0) [minimize_x; maximize_y] [] [] = (evs, inr objs) /\
    converted evs = map term [minimize_x; maximize_y] /\
    called evs = map scalar_constructor [minimize_x; maximize_y].
Proof.
  split; [reflexivity|].
  apply (assert_goals_scalar (scripted 1 2 0 0) [minimize_x; maximize_y] [] []).
  reflexivity.
Defined.

Lemma assert_goals_concat_witness :
  assert_goals (scripted 1 2 0 0) [minimize_x] [] []
    = ([Convert x; Call msat_make_minimize (Scalar 1) []; AssertObjective 1],
       inr [1]) /\
  assert_goals (scripted 1 2 0 0) ([minimize_x] ++ [maximize_y]) [] []
    = ([Convert x; Call msat_make_minimize (Scalar 1) []; AssertObjective 1]
         ++ fst (assert_goals (scripted 1 2 0 0) [maximize_y] [1]
                   ([] ++ [Convert x; Call msat_make_minimize (Scalar 1) [];
                           AssertObjective 1])),
       snd (assert_goals (scripted 1 2 0 0) [maximize_y] [1]
              ([] ++ [Convert x; Call msat_make_minimize (Scalar 1) [];
                      AssertObjective 1]))).
Proof.
  split; [reflexivity|].
  apply (proj2 (assert_goals_concat (scripted 1 2 0 0) [minimize_x] [maximize_y]
                  [] []
                  [Convert x; Call msat_make_minimize (Scalar 1) [];
                   AssertObjective 1])).
  reflexivity.
Defined.

Lemma empty_vector_goal_witness :
  is_vector minmax_empty = true /\
  terms minmax_empty = [] /\
  assert_goal (scripted 1 2 0 0) minmax_empty []
    = ([Call msat_make_minmax (Vector []) []; AssertObjective 0], inr 0).
Proof.
  split; [reflexivity|]. split; [reflexivity|].
  apply (empty_vector_goal (scripted 1 2 0 0) minmax_empty []); reflexivity.
Defined.

Lemma optimize_calls_vector_constructor_witness :
  is_vector maxmin_xy = true /\
  exists o tail,
    fst (optimize (scripted 1 2 0 0) maxmin_xy [])
    = map Convert (terms maxmin_xy)
        ++ [Call (vector_constructor maxmin_xy)
              (Vector (map (convert (scripted 1 2 0 0)) (terms maxmin_xy)))
              [false];
            AssertObjective o]
        ++ tail
    /\ o = make_objective (scripted 1 2 0 0)
             ([] ++ map Convert (terms maxmin_xy)) (vector_constructor maxmin_xy)
             (Vector (map (convert (scripted 1 2 0 0)) (terms maxmin_xy)))
             [false].
Proof.
  split; [reflexivity|].
  apply (optimize_calls_vector_constructor (scripted 1 2 0 0) maxmin_xy []).
  reflexivity.
Defined.
